(** * GES2DJI: the conversion engine of [GES2DJI.py]

    A shallow embedding of the core functions of [GES2DJI.py]
    ([thin_keyframes], [calculate_bearing], [calculate_distance],
    [create_dji_wpml], [create_template_kml]) and the properties of the
    mission document they build.

    Conventions of the embedding.
    - Python [int] is [Z]. Python [float] is [pyfloat]: a finite value, NaN
      or an infinity. A finite value is kept as an exact rational and the
      operations between floats do not round it, nor overflow; zero has no
      sign. The true division of two ints, which has to turn an exact
      quotient into a float, rounds it to the nearest double
      ([binary64_round]).
    - The functions of the [math] module and [float] on a string are a
      parameter ([PyRuntime]); each may raise.
    - A raised exception is the [Raise] outcome of the [outcome] monad; a
      [try]/[except] of the source is a [match] on the outcome.
    - [status_callback] and [print] only report progress; they are left out.
    - The ElementTree built by [create_dji_wpml] is a tree of [xml] nodes;
      a formatted number is kept as the number with its format ([text]). *)

From Stdlib Require Import QArith Qround Qabs Qpower Lqa Ascii String.
From stdpp Require Import gmap strings list sorting list_numbers pretty.

Set Default Proof Using "Type".
Set Warnings "-register-all,-clear-no-such-hyp".

(** ** Exceptions *)

Inductive exn :=
| KeyError | ValueError | TypeError | IndexError
| OverflowError | ZeroDivisionError.

Inductive outcome (A : Type) :=
| Ok (a : A)
| Raise (e : exn).
Arguments Ok {A} a.
Arguments Raise {A} e.

#[global] Instance outcome_ret : MRet outcome := λ A a, Ok a.
#[global] Instance outcome_bind : MBind outcome := λ A B f m,
  match m with
  | Ok a => f a
  | Raise e => Raise e
  end.

(** [seq[idx]] on a Python list: a negative index counts from the end, an
    index out of range raises [IndexError]. *)
Definition list_getitem {A} (l : list A) (idx : Z) : outcome A :=
  let pos := if bool_decide (idx < 0)%Z then (Z.of_nat (length l) + idx)%Z else idx in
  if bool_decide (pos < 0)%Z then Raise IndexError
  else match l !! Z.to_nat pos with
       | Some x => Ok x
       | None => Raise IndexError
       end.

(** ** Floats *)

Inductive pyfloat :=
| Finite (q : Q)
| NaN
| Infinity (negative : bool).

(** [a > b] on finite values. *)
Definition py_gt (a b : Q) : bool :=
  match (a ?= b)%Q with Gt => true | _ => false end.

Definition is_zero (a : pyfloat) : bool :=
  match a with
  | Finite q => Qeq_bool q 0
  | _ => false
  end.

Definition is_negative (a : pyfloat) : bool :=
  match a with
  | Finite q => py_gt 0 q
  | NaN => false
  | Infinity negative => negative
  end.

Definition fneg (a : pyfloat) : pyfloat :=
  match a with
  | Finite q => Finite (- q)
  | NaN => NaN
  | Infinity negative => Infinity (negb negative)
  end.

(** [a + b] *)
Definition fadd (a b : pyfloat) : pyfloat :=
  match a, b with
  | Finite x, Finite y => Finite (x + y)
  | NaN, _ | _, NaN => NaN
  | Infinity s, Infinity s' => if Bool.eqb s s' then Infinity s else NaN
  | Infinity s, Finite _ | Finite _, Infinity s => Infinity s
  end.

(** [a - b] *)
Definition fsub (a b : pyfloat) : pyfloat := fadd a (fneg b).

(** [a * b] *)
Definition fmul (a b : pyfloat) : pyfloat :=
  match a, b with
  | Finite x, Finite y => Finite (x * y)
  | NaN, _ | _, NaN => NaN
  | Infinity s, Infinity s' => Infinity (xorb s s')
  | Infinity s, Finite _ =>
    if is_zero b then NaN else Infinity (xorb s (is_negative b))
  | Finite _, Infinity s =>
    if is_zero a then NaN else Infinity (xorb s (is_negative a))
  end.

(** [a / b]: a zero divisor raises. *)
Definition fdiv (a b : pyfloat) : outcome pyfloat :=
  if is_zero b then Raise ZeroDivisionError
  else Ok match a, b with
          | Finite x, Finite y => Finite (x / y)
          | NaN, _ | _, NaN => NaN
          | Infinity _, Infinity _ => NaN
          | Infinity s, Finite _ => Infinity (xorb s (is_negative b))
          | Finite _, Infinity _ => Finite 0
          end.

(** [a % b] on finite values: the result takes the sign of [b]. *)
Definition py_mod (a b : Q) : Q := (a - b * inject_Z (Qfloor (a / b)))%Q.

(** [a % b]: a zero divisor raises; the remainder of an infinity is NaN. *)
Definition fmod (a b : pyfloat) : outcome pyfloat :=
  if is_zero b then Raise ZeroDivisionError
  else Ok match a, b with
          | Finite x, Finite y => Finite (py_mod x y)
          | NaN, _ | _, NaN => NaN
          | Infinity _, _ => NaN
          | Finite _, Infinity s =>
            if is_zero a || Bool.eqb (is_negative a) s then a else b
          end.

(** [a > b]: false as soon as one side is NaN. *)
Definition fgt (a b : pyfloat) : bool :=
  match a, b with
  | Finite x, Finite y => py_gt x y
  | NaN, _ | _, NaN => false
  | Infinity s, Infinity s' => negb s && s'
  | Infinity s, Finite _ => negb s
  | Finite _, Infinity s => s
  end.

(** [min(a, b)] and [max(a, b)] as Python evaluates them: the first
    argument stays unless the second is smaller (larger). *)
Definition py_min (a b : pyfloat) : pyfloat := if fgt a b then b else a.
Definition py_max (a b : pyfloat) : pyfloat := if fgt b a then b else a.

(** Python's [round] on a finite float: to the nearest integer, ties to the
    even one. *)
Definition py_round (x : Q) : Z :=
  let f := Qfloor x in
  match (x - inject_Z f ?= 1 # 2)%Q with
  | Lt => f
  | Gt => (f + 1)%Z
  | Eq => if Z.even f then f else (f + 1)%Z
  end.

(** [round(x)]: NaN raises [ValueError], an infinity [OverflowError]. *)
Definition round_float (x : pyfloat) : outcome Z :=
  match x with
  | Finite q => Ok (py_round q)
  | NaN => Raise ValueError
  | Infinity _ => Raise OverflowError
  end.

(** The exponent [e] with [2^e <= a < 2^(e+1)], for [a > 0]. *)
Definition binade (a : Q) : Z :=
  let e0 := (Z.log2 (Qnum a) - Z.log2 (Z.pos (Qden a)))%Z in
  if Qle_bool (2 ^ e0) a then e0 else (e0 - 1)%Z.

(** The double nearest to [x], ties to the even mantissa: 53 bits of
    mantissa, exponents from -1022 on (the range has no upper end here;
    the caller checks for overflow). *)
Definition binary64_round (x : Q) : Q :=
  if Qeq_bool x 0 then 0%Q
  else
    let a := Qabs x in
    let e := Z.max (binade a) (-1022) in
    let ulp := (2 ^ (e - 52))%Q in
    let mantissa := py_round (a / ulp) in
    ((if Qle_bool 0 x then 1 else -1) * inject_Z mantissa * ulp)%Q.

(** [a / b] on two ints: the exact quotient rounded to the nearest double;
    a zero divisor raises, and so does a quotient beyond the doubles. *)
Definition int_truediv (a b : Z) : outcome pyfloat :=
  if bool_decide (b = 0%Z) then Raise ZeroDivisionError
  else
    let q := binary64_round (inject_Z a / inject_Z b) in
    if Qle_bool (2 ^ 1024) (Qabs q) then Raise OverflowError
    else Ok (Finite q).

(** ** Waypoint thinning *)

(** The body of the sampling loop of [thin_keyframes] for one [i]. *)
Definition sample_index (original_count target_count i : Z) : outcome Z :=
  ideal_index ← int_truediv (i * (original_count - 1)) (target_count - 1);
  index ← round_float ideal_index;
  mret (Z.max 0 (Z.min (original_count - 1) index)).

(** The index [sample_index] returns when nothing raises. *)
Definition sample_value (original_count target_count i : Z) : Z :=
  let ideal_index :=
    binary64_round (inject_Z (i * (original_count - 1))
                    / inject_Z (target_count - 1)) in
  Z.max 0 (Z.min (original_count - 1) (py_round ideal_index)).

(** [for i in range(...): ... indices_to_keep.add(index)] over the values
    of [i] that are left. *)
Fixpoint sample_loop (original_count target_count : Z) (range : list Z)
    (indices_to_keep : gset Z) : outcome (gset Z) :=
  match range with
  | [] => Ok indices_to_keep
  | i :: range =>
    index ← sample_index original_count target_count i;
    sample_loop original_count target_count range (indices_to_keep ∪ {[ index ]})
  end.

(** [target_count] is [None] when the argument is not an [int] (absent,
    [None], a float, ...): the test [not isinstance(target_count, int)]. *)
Definition thin_keyframes {A} (keyframes_list : list A)
    (target_count : option Z) : outcome (list A) :=
  let original_count := Z.of_nat (length keyframes_list) in
  match target_count with
  | None => Ok keyframes_list
  | Some target_count =>
    if bool_decide (target_count ≤ 1 ∨ original_count ≤ target_count)%Z
    then Ok keyframes_list
    else
      indices_to_keep ←
        sample_loop original_count target_count (seqZ 0 target_count) ∅;
      let indices_to_keep := indices_to_keep ∪ {[ 0%Z ]} in
      let indices_to_keep := indices_to_keep ∪ {[ (original_count - 1)%Z ]} in
      let sorted_indices := merge_sort Z.le (elements indices_to_keep) in
      mapM (list_getitem keyframes_list) sorted_indices
  end.

(** ** The Python runtime the engine relies on

    The functions of the [math] module and the conversion of a string by
    [float] are not code of the converter; the engine is stated over any
    implementation of them. A [math] function may raise ([math.sin] of an
    infinity raises [ValueError]). *)

Class PyRuntime := {
  radians : pyfloat → outcome pyfloat;
  degrees : pyfloat → outcome pyfloat;
  sin : pyfloat → outcome pyfloat;
  cos : pyfloat → outcome pyfloat;
  atan2 : pyfloat → pyfloat → outcome pyfloat;
  sqrt : pyfloat → outcome pyfloat;
  (** [float(s)] for a string [s]; [None] is [ValueError] *)
  float_of_str : string → option pyfloat
}.

(** ** Constants *)

Definition WPML_NAMESPACE : string := "http://www.dji.com/wpmz/1.0.2".
Definition DEFAULT_SPEED_MPS : pyfloat := Finite 12.
Definition DEFAULT_TRANSITIONAL_SPEED_MPS : pyfloat := Finite 12.
Definition DEFAULT_WAYPOINT_SPEED_MPS : pyfloat := Finite 12.
Definition DEFAULT_ALTITUDE_TYPE : string := "WGS84".
Definition DEFAULT_HEADING_MODE_WPML : string := "smoothTransition".
Definition DEFAULT_HEADING_PATH_MODE : string := "followBadArc".
Definition DEFAULT_TURN_MODE_INTERMEDIATE : string :=
  "toPointAndPassWithContinuityCurvature".
Definition DEFAULT_TURN_MODE_LAST : string :=
  "toPointAndStopWithContinuityCurvature".
Definition DEFAULT_TURN_DAMPING_DIST : pyfloat := Finite 0.
Definition DEFAULT_FINISH_ACTION : string := "goHome".
Definition DEFAULT_RC_LOST_ACTION : string := "goBack".
Definition DRONE_ENUM_VALUE : Z := 68.
Definition DRONE_SUB_ENUM_VALUE : Z := 0.
Definition MIN_GIMBAL_PITCH : pyfloat := Finite (-90).
Definition MAX_GIMBAL_PITCH : pyfloat := Finite 60.
Definition DEFAULT_GIMBAL_PITCH : pyfloat := Finite 0.
Definition EARTH_RADIUS_METERS : pyfloat := Finite 6371000.

(** ** Geodesy *)

Section geodesy.
Context `{PyRuntime}.

(** The value of [math.degrees(math.atan2(x, y))] in [calculate_bearing],
    before it is normalised. *)
Definition initial_bearing (lat1 lon1 lat2 lon2 : pyfloat) : outcome pyfloat :=
  lat1 ← radians lat1;
  lon1 ← radians lon1;
  lat2 ← radians lat2;
  lon2 ← radians lon2;
  let dLon := fsub lon2 lon1 in
  sin_dLon ← sin dLon;
  cos_lat2 ← cos lat2;
  let x := fmul sin_dLon cos_lat2 in
  cos_lat1 ← cos lat1;
  sin_lat2 ← sin lat2;
  sin_lat1 ← sin lat1;
  cos_lat2 ← cos lat2;
  cos_dLon ← cos dLon;
  let y := fsub (fmul cos_lat1 sin_lat2)
                (fmul (fmul sin_lat1 cos_lat2) cos_dLon) in
  initial_bearing ← atan2 x y;
  degrees initial_bearing.

Definition calculate_bearing (lat1 lon1 lat2 lon2 : pyfloat) : outcome pyfloat :=
  initial_bearing ← initial_bearing lat1 lon1 lat2 lon2;
  bearing ← fmod (fadd initial_bearing (Finite 360)) (Finite 360);
  mret (if fgt bearing (Finite 180) then fsub bearing (Finite 360) else bearing).

Definition calculate_distance (lat1 lon1 lat2 lon2 : pyfloat) : outcome pyfloat :=
  lat1 ← radians lat1;
  lon1 ← radians lon1;
  lat2 ← radians lat2;
  lon2 ← radians lon2;
  let dlon := fsub lon2 lon1 in
  let dlat := fsub lat2 lat1 in
  half_dlat ← fdiv dlat (Finite 2);
  sin_half_dlat ← sin half_dlat;
  cos_lat1 ← cos lat1;
  cos_lat2 ← cos lat2;
  half_dlon ← fdiv dlon (Finite 2);
  sin_half_dlon ← sin half_dlon;
  let a := fadd (fmul sin_half_dlat sin_half_dlat)
                (fmul (fmul cos_lat1 cos_lat2)
                      (fmul sin_half_dlon sin_half_dlon)) in
  sqrt_a ← sqrt a;
  sqrt_1_a ← sqrt (fsub (Finite 1) a);
  angle ← atan2 sqrt_a sqrt_1_a;
  let c := fmul (Finite 2) angle in
  mret (fmul EARTH_RADIUS_METERS c).
End geodesy.

(** ** Keyframes as loaded from JSON *)

(** A value produced by [json.load]: an integer literal gives an [int],
    every other number a [float] ([NaN] and [Infinity] are accepted). A
    dict is the list of its items, looked up by key. *)
Inductive json :=
| JNull
| JBool (b : bool)
| JInt (i : Z)
| JFloat (x : pyfloat)
| JStr (s : string)
| JList (l : list json)
| JDict (items : list (string * json)).

Fixpoint dict_get (items : list (string * json)) (key : string) : option json :=
  match items with
  | [] => None
  | (k, v) :: items => if bool_decide (k = key) then Some v else dict_get items key
  end.

(** [v[key]] for a string key: [KeyError] on a dict without the key,
    [TypeError] on everything that is not a dict. *)
Definition py_getitem (v : json) (key : string) : outcome json :=
  match v with
  | JDict items =>
    match dict_get items key with
    | Some x => Ok x
    | None => Raise KeyError
    end
  | _ => Raise TypeError
  end.

(** The ints that [float] turns into a double: those that round below
    2^1024. *)
Definition fits_double (i : Z) : bool :=
  bool_decide (Z.abs i < 2 ^ 1024 - 2 ^ 970)%Z.

Section engine.
Context `{PyRuntime}.

(** [float(v)]; an int beyond the doubles raises [OverflowError]. *)
Definition py_float (v : json) : outcome pyfloat :=
  match v with
  | JInt i =>
    if fits_double i then Ok (Finite (inject_Z i)) else Raise OverflowError
  | JFloat x => Ok x
  | JBool b => Ok (Finite (if b then 1 else 0))
  | JStr s =>
    match float_of_str s with
    | Some x => Ok x
    | None => Raise ValueError
    end
  | JNull | JList _ | JDict _ => Raise TypeError
  end.

(** [float(kf['coordinate'][name])] *)
Definition coordinate_field (kf : json) (name : string) : outcome pyfloat :=
  c ← py_getitem kf "coordinate"; v ← py_getitem c name; py_float v.
End engine.
(** ** The mission document *)

(** The text of an element. A number that the source formats is kept with
    its format: [TInt i] is [str(i)] for an int, [TFloat x] is [str(x)] for
    a float, [TFixed n x] is [f"{x:.nf}"] and [TCoordinates lon lat] is
    [f"{lon:.8f},{lat:.8f}"]. *)
Inductive text :=
| TStr (s : string)
| TInt (i : Z)
| TFloat (x : pyfloat)
| TFixed (places : nat) (x : pyfloat)
| TCoordinates (lon lat : pyfloat).

(** An [ET.Element]: tag, attributes, text and children in document
    order. *)
Inductive xml :=
| Element (tag : string) (attrib : list (string * string))
          (txt : option text) (children : list xml).

Definition tag_of (e : xml) : string := let 'Element t _ _ _ := e in t.
Definition text_of (e : xml) : option text := let 'Element _ _ x _ := e in x.
Definition children_of (e : xml) : list xml := let 'Element _ _ _ cs := e in cs.

(** [ET.SubElement(parent, tag).text = x], as the child it appends. *)
Definition leaf (tag : string) (x : text) : xml := Element tag [] (Some x) [].
(** An element that only holds children. *)
Definition node (tag : string) (children : list xml) : xml :=
  Element tag [] None children.

(** [f"{{{WPML_NAMESPACE}}}name"] *)
Definition wpml (name : string) : string :=
  "{" +:+ WPML_NAMESPACE +:+ "}" +:+ name.
Arguments wpml : simpl never.

(** [e.find(tag)]: the first child with the tag. *)
Definition find (tag : string) (e : xml) : option xml :=
  List.find (λ c, bool_decide (tag_of c = tag)) (children_of e).

(** [e.findall(tag)]: the children with the tag, in order. *)
Definition findall (tag : string) (e : xml) : list xml :=
  List.filter (λ c, bool_decide (tag_of c = tag)) (children_of e).

(** [e.iter()]: the element and its descendants, in document order. *)
Fixpoint iter (e : xml) : list xml :=
  match e with
  | Element _ _ _ cs => e :: flat_map iter cs
  end.

(** The texts of the elements with a given tag, in document order. *)
Definition texts_of (tag : string) (e : xml) : list (option text) :=
  text_of <$> List.filter (λ c, bool_decide (tag_of c = tag)) (iter e).

(** ** Mission settings

    The [mission_settings] dict, one field per key the engine reads, at the
    type the engine uses the value at; [None] is a key that is absent (for
    [fixed_pitch] and [manual_heading] also the value [None]). *)
Record MissionSettings := {
  finishAction : option string;
  rcLostAction : option string;
  transitionalSpeed : option pyfloat;
  altitudeType : option string;
  speed : option pyfloat;
  waypointSpeed : option pyfloat;
  turnDamping : option pyfloat;
  desired_waypoints : option Z;
  fixed_pitch : option pyfloat;
  heading_mode : option string;
  manual_heading : option pyfloat
}.

(** A keyframe tagged with the path of the file it came from. *)
Definition tagged_keyframe : Type := json * string.

(** The variables the placemark loop of [create_dji_wpml] updates: the
    children appended to [folder] so far and the two id counters. *)
Record build_state := {
  folder : list xml;
  action_group_id_counter : Z;
  action_id_counter : Z
}.

(** The exceptions the [try] blocks of [create_dji_wpml] catch. *)
Definition caught (e : exn) : bool :=
  match e with
  | KeyError | ValueError | TypeError => true
  | IndexError | OverflowError | ZeroDivisionError => false
  end.

(** [f"{x:.1f}"] where [x] may be [None], which [format] rejects. *)
Definition format_1f (x : option pyfloat) : outcome text :=
  match x with
  | Some x => Ok (TFixed 1 x)
  | None => Raise TypeError
  end.

(** ** The mission builder: [create_dji_wpml] *)

Section builder.
Context `{PyRuntime}.
Variable mission_settings : MissionSettings.
Variable file_pois : gmap string (pyfloat * pyfloat).

(** The [missionConfig] block. *)
Definition mission_config : xml :=
  node (wpml "missionConfig")
    [ leaf (wpml "flyToWaylineMode") (TStr "safely");
      leaf (wpml "finishAction")
        (TStr (default DEFAULT_FINISH_ACTION (finishAction mission_settings)));
      leaf (wpml "exitOnRCLost") (TStr "executeLostAction");
      leaf (wpml "executeRCLostAction")
        (TStr (default DEFAULT_RC_LOST_ACTION (rcLostAction mission_settings)));
      leaf (wpml "globalTransitionalSpeed")
        (TFloat (default DEFAULT_TRANSITIONAL_SPEED_MPS
                         (transitionalSpeed mission_settings)));
      node (wpml "droneInfo")
        [ leaf (wpml "droneEnumValue") (TInt DRONE_ENUM_VALUE);
          leaf (wpml "droneSubEnumValue") (TInt DRONE_SUB_ENUM_VALUE) ] ].

(** One round of the loop that sums the path length; the state is
    [total_distance_meters] and [(last_lat, last_lon)]. The [except]
    clause is [pass]. *)
Definition distance_step (acc : pyfloat * option (pyfloat * pyfloat))
    (tkf : tagged_keyframe) : outcome (pyfloat * option (pyfloat * pyfloat)) :=
  let '(total_distance_meters, last) := acc in
  let '(kf_data, _) := tkf in
  let body :=
    lat ← coordinate_field kf_data "latitude";
    lon ← coordinate_field kf_data "longitude";
    total_distance_meters ←
      match last with
      | Some (last_lat, last_lon) =>
        segment_distance ← calculate_distance last_lat last_lon lat lon;
        mret (fadd total_distance_meters segment_distance)
      | None => mret total_distance_meters
      end;
    mret (total_distance_meters, Some (lat, lon)) in
  match body with
  | Ok acc' => Ok acc'
  | Raise e => if caught e then Ok acc else Raise e
  end.

Fixpoint distance_loop (acc : pyfloat * option (pyfloat * pyfloat))
    (kfs : list tagged_keyframe)
    : outcome (pyfloat * option (pyfloat * pyfloat)) :=
  match kfs with
  | [] => Ok acc
  | tkf :: kfs => acc ← distance_step acc tkf; distance_loop acc kfs
  end.

(** [mission_settings.get('heading_mode', 'Follow Course')] *)
Definition heading_mode_option : string :=
  default "Follow Course" (heading_mode mission_settings).

(** ['1' if (i == 0 or i == num_keyframes - 1) else '0'] *)
Definition first_or_last (i num_keyframes : Z) : string :=
  if bool_decide (i = 0 ∨ i = num_keyframes - 1)%Z then "1" else "0".

(** The heading logic of one waypoint: [wp_heading_mode],
    [wp_heading_angle] ([None] is Python's [None]) and
    [wp_heading_angle_enable]. *)
Definition waypoint_heading (i num_keyframes : Z) (origin_file : string)
    (lat lon : pyfloat) : outcome (string * option pyfloat * string) :=
  if bool_decide (heading_mode_option = "Point Towards File's POI") then
    match file_pois !! origin_file with
    | Some (center_lat, center_lon) =>
      wp_heading_angle ← calculate_bearing lat lon center_lat center_lon;
      mret (DEFAULT_HEADING_MODE_WPML, Some wp_heading_angle,
            first_or_last i num_keyframes)
    | None => mret ("followWayline", Some (Finite 0), "0")
    end
  else if bool_decide (heading_mode_option = "Manual Fixed Heading") then
    mret (DEFAULT_HEADING_MODE_WPML, manual_heading mission_settings,
          first_or_last i num_keyframes)
  else mret ("followWayline", Some (Finite 0), "0").

(** Action group 1: gimbal rotate on reach point. *)
Definition action_group_reach (i group_id action_id : Z) (target_pitch : pyfloat) : xml :=
  node (wpml "actionGroup")
    [ leaf (wpml "actionGroupId") (TInt group_id);
      leaf (wpml "actionGroupStartIndex") (TInt i);
      leaf (wpml "actionGroupEndIndex") (TInt i);
      leaf (wpml "actionGroupMode") (TStr "parallel");
      node (wpml "actionTrigger")
        [ leaf (wpml "actionTriggerType") (TStr "reachPoint") ];
      node (wpml "action")
        [ leaf (wpml "actionId") (TInt action_id);
          leaf (wpml "actionActuatorFunc") (TStr "gimbalRotate");
          node (wpml "actionActuatorFuncParam")
            [ leaf (wpml "gimbalHeadingYawBase") (TStr "aircraft");
              leaf (wpml "gimbalRotateMode") (TStr "absoluteAngle");
              leaf (wpml "gimbalPitchRotateEnable") (TStr "1");
              leaf (wpml "gimbalPitchRotateAngle") (TFixed 1 target_pitch);
              leaf (wpml "gimbalRollRotateEnable") (TStr "0");
              leaf (wpml "gimbalRollRotateAngle") (TStr "0");
              leaf (wpml "gimbalYawRotateEnable") (TStr "0");
              leaf (wpml "gimbalYawRotateAngle") (TStr "0");
              leaf (wpml "gimbalRotateTimeEnable") (TStr "0");
              leaf (wpml "gimbalRotateTime") (TStr "0");
              leaf (wpml "payloadPositionIndex") (TStr "0") ] ] ].

(** Action group 2: gimbal evenly rotate between points. *)
Definition action_group_between (i group_id action_id : Z) (target_pitch : pyfloat) : xml :=
  node (wpml "actionGroup")
    [ leaf (wpml "actionGroupId") (TInt group_id);
      leaf (wpml "actionGroupStartIndex") (TInt i);
      leaf (wpml "actionGroupEndIndex") (TInt (i + 1));
      leaf (wpml "actionGroupMode") (TStr "parallel");
      node (wpml "actionTrigger")
        [ leaf (wpml "actionTriggerType")
            (TStr (if bool_decide (i = 0%Z) then "reachPoint"
                   else "betweenAdjacentPoints")) ];
      node (wpml "action")
        [ leaf (wpml "actionId") (TInt action_id);
          leaf (wpml "actionActuatorFunc") (TStr "gimbalEvenlyRotate");
          node (wpml "actionActuatorFuncParam")
            [ leaf (wpml "gimbalPitchRotateAngle") (TFixed 1 target_pitch);
              leaf (wpml "payloadPositionIndex") (TStr "0") ] ] ].

(** The parse of the three coordinate fields at the head of the placemark
    loop. *)
Definition parse_coordinate (kf : json)
    : outcome (pyfloat * pyfloat * pyfloat) :=
  lat ← coordinate_field kf "latitude";
  lon ← coordinate_field kf "longitude";
  alt_amsl ← coordinate_field kf "altitude";
  mret (lat, lon, alt_amsl).

(** The children of the [Placemark] of a keyframe whose coordinate parsed,
    with the state of the id counters after it. *)
Definition placemark_children (num_keyframes : Z)
    (start_altitude target_pitch : pyfloat) (st : build_state) (i : Z)
    (origin_file : string) (lat lon alt_amsl : pyfloat)
    : outcome (list xml * Z * Z) :=
  let point := node "Point" [ leaf "coordinates" (TCoordinates lon lat) ] in
  let index := leaf (wpml "index") (TInt i) in
  let execute_height :=
    if bool_decide (altitudeType mission_settings ≠ Some "WGS84")
    then fsub alt_amsl start_altitude else alt_amsl in
  let turn_mode :=
    if bool_decide (i = num_keyframes - 1)%Z then DEFAULT_TURN_MODE_LAST
    else DEFAULT_TURN_MODE_INTERMEDIATE in
  let turn_param :=
    node (wpml "waypointTurnParam")
      [ leaf (wpml "waypointTurnMode") (TStr turn_mode);
        leaf (wpml "waypointTurnDampingDist")
          (TFloat (default DEFAULT_TURN_DAMPING_DIST
                           (turnDamping mission_settings))) ] in
  '(wp_heading_mode, wp_heading_angle, wp_heading_angle_enable) ←
    waypoint_heading i num_keyframes origin_file lat lon;
  heading_angle ← format_1f wp_heading_angle;
  let heading_param :=
    node (wpml "waypointHeadingParam")
      [ leaf (wpml "waypointHeadingMode") (TStr wp_heading_mode);
        leaf (wpml "waypointHeadingAngle") heading_angle;
        leaf (wpml "waypointPoiPoint") (TStr "0.000000,0.000000,0.000000");
        leaf (wpml "waypointHeadingAngleEnable") (TStr wp_heading_angle_enable);
        leaf (wpml "waypointHeadingPathMode") (TStr DEFAULT_HEADING_PATH_MODE) ] in
  let group1 :=
    action_group_reach i (action_group_id_counter st) (action_id_counter st)
                       target_pitch in
  let group_counter := (action_group_id_counter st + 1)%Z in
  let action_counter := (action_id_counter st + 1)%Z in
  let fixed :=
    [ point; index;
      leaf (wpml "executeHeight") (TFixed 1 execute_height);
      leaf (wpml "waypointSpeed")
        (TFloat (default DEFAULT_WAYPOINT_SPEED_MPS
                         (waypointSpeed mission_settings)));
      turn_param;
      leaf (wpml "useStraightLine") (TStr "0");
      heading_param;
      group1 ] in
  if bool_decide (i < num_keyframes - 1)%Z then
    let group2 := action_group_between i group_counter action_counter target_pitch in
    mret (fixed ++ [ group2 ], (group_counter + 1)%Z, (action_counter + 1)%Z)
  else mret (fixed, group_counter, action_counter).

(** One round of the placemark loop. The [Placemark] is appended to the
    folder before the [try]; on a caught exception the round ends at
    [continue] and the element stays as it is. *)
Definition placemark_step (num_keyframes : Z)
    (start_altitude target_pitch : pyfloat)
    (st : build_state) (i : Z) (tkf : tagged_keyframe) : outcome build_state :=
  let '(kf, origin_file) := tkf in
  match parse_coordinate kf with
  | Raise e =>
    if caught e then
      Ok {| folder := folder st ++ [ node "Placemark" [] ];
            action_group_id_counter := action_group_id_counter st;
            action_id_counter := action_id_counter st |}
    else Raise e
  | Ok (lat, lon, alt_amsl) =>
    '(children, group_counter, action_counter) ←
      placemark_children num_keyframes start_altitude target_pitch st i
                         origin_file lat lon alt_amsl;
    mret {| folder := folder st ++ [ node "Placemark" children ];
            action_group_id_counter := group_counter;
            action_id_counter := action_counter |}
  end.

(** [for i, (kf, origin_file) in enumerate(...)], from index [i] on. *)
Fixpoint placemark_loop (num_keyframes : Z)
    (start_altitude target_pitch : pyfloat)
    (i : Z) (kfs : list tagged_keyframe) (st : build_state) : outcome build_state :=
  match kfs with
  | [] => Ok st
  | tkf :: kfs =>
    st ← placemark_step num_keyframes start_altitude target_pitch st i tkf;
    placemark_loop num_keyframes start_altitude target_pitch (i + 1) kfs st
  end.

(** [max(MIN_GIMBAL_PITCH, min(MAX_GIMBAL_PITCH, fixed_pitch_setting))], or
    the default when the setting is [None]. *)
Definition resolve_target_pitch : pyfloat :=
  match fixed_pitch mission_settings with
  | Some fixed_pitch_setting =>
    py_max MIN_GIMBAL_PITCH (py_min MAX_GIMBAL_PITCH fixed_pitch_setting)
  | None => DEFAULT_GIMBAL_PITCH
  end.

(** [mission_settings.get('speed', DEFAULT_SPEED_MPS)] *)
Definition speed_mps : pyfloat :=
  default DEFAULT_SPEED_MPS (speed mission_settings).

(** [total_distance_meters / speed_mps if speed_mps > 0 else 0] *)
Definition duration_seconds (total_distance_meters : pyfloat) : outcome pyfloat :=
  if fgt speed_mps (Finite 0) then fdiv total_distance_meters speed_mps
  else mret (Finite 0).

(** The children of [folder] that precede the placemarks. The source
    appends the first three before it sums the path length and the other
    three after. *)
Definition folder_header (total_distance_meters calculated_duration_seconds : pyfloat)
    : list xml :=
  [ leaf (wpml "templateId") (TStr "0");
    leaf (wpml "executeHeightMode")
      (TStr (default DEFAULT_ALTITUDE_TYPE (altitudeType mission_settings)));
    leaf (wpml "waylineId") (TStr "0");
    leaf (wpml "distance") (TFixed 1 total_distance_meters);
    leaf (wpml "duration") (TFixed 1 calculated_duration_seconds);
    leaf (wpml "autoFlightSpeed") (TFloat speed_mps) ].

(** [create_dji_wpml]; the result is the tree [root] that the source
    serialises with [ET.tostring]. *)
Definition create_dji_wpml (tagged_thinned_keyframes : list tagged_keyframe)
    : outcome xml :=
  match tagged_thinned_keyframes with
  | [] => Raise ValueError
  | (first_kf_data, _) :: _ =>
    '(total_distance_meters, _) ←
      distance_loop (Finite 0, None) tagged_thinned_keyframes;
    calculated_duration_seconds ← duration_seconds total_distance_meters;
    start_altitude ← coordinate_field first_kf_data "altitude";
    let target_pitch := resolve_target_pitch in
    let num_keyframes := Z.of_nat (length tagged_thinned_keyframes) in
    st ← placemark_loop num_keyframes start_altitude target_pitch 0
           tagged_thinned_keyframes
           {| folder := folder_header total_distance_meters
                                      calculated_duration_seconds;
              action_group_id_counter := 1;
              action_id_counter := 1 |};
    mret (Element "kml" [ ("xmlns", "http://www.opengis.net/kml/2.2") ] None
            [ node "Document" [ mission_config; node "Folder" (folder st) ] ])
  end.

(** Steps 2 and 3 of [ges_json_to_dji_kmz]: thin the merged keyframes to
    [desired_waypoints], then build the mission document. *)
Definition thin_and_build (all_tagged_keyframes : list tagged_keyframe)
    : outcome xml :=
  thinned_tagged_keyframes ←
    thin_keyframes all_tagged_keyframes (desired_waypoints mission_settings);
  create_dji_wpml thinned_tagged_keyframes.

End builder.

(** ** The template provider: [create_template_kml] *)

(** [needle in hay] on strings. *)
Fixpoint contains (needle hay : string) : bool :=
  String.prefix needle hay ||
  match hay with
  | EmptyString => false
  | String _ hay => contains needle hay
  end.

(** [f"{x:.nf}"]: [x] rounded to [places] decimals, ties to even. *)
Definition format_fixed (places : nat) (x : pyfloat) : string :=
  match x with
  | Finite q =>
    let scale := (10 ^ Z.of_nat places)%Z in
    let scaled := Z.abs (py_round (q * inject_Z scale)) in
    let digits := pretty (scaled `mod` scale)%Z in
    let zeros := String.concat EmptyString
                   (replicate (places - String.length digits) "0") in
    (if py_gt 0 q then "-" else EmptyString)
    +:+ pretty (scaled `div` scale)%Z
    +:+ (if bool_decide (places = 0%nat) then EmptyString
         else "." +:+ zeros +:+ digits)
  | NaN => "nan"
  | Infinity negative => if negative then "-inf" else "inf"
  end.

Definition dquote : string := String (Ascii.ascii_of_nat 34) EmptyString.
Definition newline : string := String (Ascii.ascii_of_nat 10) EmptyString.

(** The default template, for the timestamp
    [str(int(datetime.now(utc).timestamp() * 1000))] (or ["0"]). *)
Definition default_template (timestamp_ms : string) : string :=
  String.concat newline
    [ "<?xml version=" +:+ dquote +:+ "1.0" +:+ dquote +:+ " encoding="
        +:+ dquote +:+ "UTF-8" +:+ dquote +:+ "?>";
      "<kml xmlns=" +:+ dquote +:+ "http://www.opengis.net/kml/2.2" +:+ dquote
        +:+ " xmlns:wpml=" +:+ dquote +:+ WPML_NAMESPACE +:+ dquote +:+ ">";
      "  <Document>";
      "    <wpml:author>GES_Converter_GUI</wpml:author>";
      "    <wpml:createTime>" +:+ timestamp_ms +:+ "</wpml:createTime>";
      "    <wpml:updateTime>" +:+ timestamp_ms +:+ "</wpml:updateTime>";
      "    <wpml:missionConfig>";
      "      <wpml:flyToWaylineMode>safely</wpml:flyToWaylineMode>";
      "      <wpml:finishAction>" +:+ DEFAULT_FINISH_ACTION
        +:+ "</wpml:finishAction>";
      "      <wpml:exitOnRCLost>executeLostAction</wpml:exitOnRCLost>";
      "      <wpml:executeRCLostAction>" +:+ DEFAULT_RC_LOST_ACTION
        +:+ "</wpml:executeRCLostAction>";
      "      <wpml:globalTransitionalSpeed>"
        +:+ format_fixed 1 DEFAULT_TRANSITIONAL_SPEED_MPS
        +:+ "</wpml:globalTransitionalSpeed>";
      "      <wpml:droneInfo>";
      "        <wpml:droneEnumValue>" +:+ pretty DRONE_ENUM_VALUE
        +:+ "</wpml:droneEnumValue>";
      "        <wpml:droneSubEnumValue>" +:+ pretty DRONE_SUB_ENUM_VALUE
        +:+ "</wpml:droneSubEnumValue>";
      "      </wpml:droneInfo>";
      "    </wpml:missionConfig>";
      "    <Folder>";
      "        <Placemark>";
      "            <Point><coordinates>0,0</coordinates></Point>";
      "        </Placemark>";
      "    </Folder>";
      "  </Document>";
      "</kml>" ].

(** The test the source applies to the reference text: it is not empty
    and holds both markers as substrings. *)
Definition has_config_markers (content : string) : bool :=
  contains "<wpml:missionConfig>" content && contains "<wpml:droneInfo>" content.

(** [create_template_kml]; [ref_kml_content = None] is Python's [None],
    [timestamp_ms] the clock reading of the call. *)
Definition create_template_kml (ref_kml_content : option string)
    (timestamp_ms : string) : string :=
  match ref_kml_content with
  | Some content =>
    if negb (String.eqb content EmptyString) then
      if has_config_markers content then content
      else default_template timestamp_ms
    else default_template timestamp_ms
  | None => default_template timestamp_ms
  end.

(** ** Reading the mission document back *)

(** The text of the first child with a tag. *)
Definition child_text (tag : string) (e : xml) : option text :=
  find tag e ≫= text_of.

(** [root.find("Document").find("Folder").findall("Placemark")] *)
Definition placemarks (root : xml) : list xml :=
  from_option (findall "Placemark") [] (find "Document" root ≫= find "Folder").

(** The element has no child elements. *)
Definition childless (e : xml) : bool :=
  match children_of e with
  | [] => true
  | _ :: _ => false
  end.

Definition placemark_index (pm : xml) : option text :=
  child_text (wpml "index") pm.

(** The indices written to the document, in document order: one for each
    placemark that has an [index] child. *)
Definition written_indices (root : xml) : list text :=
  omap placemark_index (placemarks root).

Definition execute_height (pm : xml) : option text :=
  child_text (wpml "executeHeight") pm.

Definition heading_angle_enable (pm : xml) : option text :=
  find (wpml "waypointHeadingParam") pm
  ≫= child_text (wpml "waypointHeadingAngleEnable").

Definition action_group_ids (root : xml) : list (option text) :=
  texts_of (wpml "actionGroupId") root.

Definition action_ids (root : xml) : list (option text) :=
  texts_of (wpml "actionId") root.

Section keyframes.
Context `{PyRuntime}.

(** The coordinate fields of a keyframe parse. *)
Definition parses (kf : json) : bool :=
  match parse_coordinate kf with
  | Ok _ => true
  | Raise _ => false
  end.

(** The positions, counted from [i], of the keyframes that parse. *)
Fixpoint parsed_positions (i : Z) (kfs : list tagged_keyframe) : list Z :=
  match kfs with
  | [] => []
  | (kf, _) :: kfs =>
    if parses kf then i :: parsed_positions (i + 1) kfs
    else parsed_positions (i + 1) kfs
  end.

(** The altitude reference as the specification words it: the altitude of
    the first keyframe of the sequence whose coordinate fields parse. *)
Fixpoint spec_altitude_reference (kfs : list tagged_keyframe)
    : option pyfloat :=
  match kfs with
  | [] => None
  | (kf, _) :: kfs =>
    match parse_coordinate kf with
    | Ok (_, _, alt) => Some alt
    | Raise _ => spec_altitude_reference kfs
    end
  end.

End keyframes.

(** The heading of a waypoint from a file is resolved: the mode is the
    manual one, or the POI one and the file has a POI. *)
Definition heading_resolved (mission_settings : MissionSettings)
    (file_pois : gmap string (pyfloat * pyfloat)) (origin_file : string)
    : bool :=
  bool_decide (heading_mode_option mission_settings = "Manual Fixed Heading")
  || (bool_decide (heading_mode_option mission_settings
                   = "Point Towards File's POI")
      && bool_decide (is_Some (file_pois !! origin_file))).

(** ** Well-formedness of a reference text, as the specification asks

    The specification reuses a reference text only if it parses. A text
    that parses as XML closes every start tag by the matching end tag, in
    nesting order; [tags_balanced] checks this much. *)

Fixpoint ends_with_slash (t : string) : bool :=
  match t with
  | EmptyString => false
  | String c EmptyString => bool_decide (c = "/"%char)
  | String _ t => ends_with_slash t
  end.

Fixpoint tag_name (t : string) : string :=
  match t with
  | EmptyString => EmptyString
  | String c t =>
    if bool_decide (c = " "%char) then EmptyString else String c (tag_name t)
  end.

(** The open tags after the tag with the text [t] (what stands between
    [<] and [>]); [None] when it closes a tag that is not the open one. *)
Definition after_tag (t : string) (opened : list string) : option (list string) :=
  match t with
  | String "/"%char name =>
    match opened with
    | n :: opened => if String.eqb n name then Some opened else None
    | [] => None
    end
  | String "?"%char _ | String "!"%char _ => Some opened
  | _ => if ends_with_slash t then Some opened else Some (tag_name t :: opened)
  end.

Fixpoint balanced_scan (s : string) (tag : option string) (opened : list string)
    : bool :=
  match s with
  | EmptyString =>
    match tag, opened with
    | None, [] => true
    | _, _ => false
    end
  | String c s =>
    match tag with
    | None =>
      if bool_decide (c = "<"%char) then balanced_scan s (Some EmptyString) opened
      else balanced_scan s None opened
    | Some t =>
      if bool_decide (c = ">"%char) then
        match after_tag t opened with
        | Some opened => balanced_scan s None opened
        | None => false
        end
      else balanced_scan s (Some (t +:+ String c EmptyString)) opened
    end
  end.

Definition tags_balanced (content : string) : bool :=
  balanced_scan content None [].

(** The reuse test as the specification words it: the text parses and
    holds the two markers. *)
Definition spec_reuses_reference (content : string) : bool :=
  tags_balanced content && has_config_markers content.

(** ** A runtime to run the engine on examples

    Rational approximations of the [math] functions on finite values (pi
    as 355/113, short series for the trigonometric functions, a few Newton
    steps for the square root), which treat NaN and the infinities as the
    [math] module does, and a [float] that reads plain decimal numerals.
    The theorems below hold for every runtime; this one only serves to run
    the engine on concrete inputs. *)

Definition approx_pi : Q := 355 # 113.

(** Results are cut to nine decimals, which keeps the numerals short. *)
Definition snap (x : Q) : Q := Qred (Qfloor (x * 1000000000) # 1000000000).

Definition approx_sin (x : Q) : Q := snap (x - x ^ 3 / 6 + x ^ 5 / 120).
Definition approx_cos (x : Q) : Q := snap (1 - x ^ 2 / 2 + x ^ 4 / 24).

Definition approx_atan (t : Q) : Q :=
  if py_gt (Qabs t) 1
  then snap ((if py_gt t 0 then approx_pi / 2 else - approx_pi / 2)
             - t / (t ^ 2 + (7 # 25)))
  else snap (t / (1 + (7 # 25) * t ^ 2)).

Definition approx_atan2 (y x : Q) : Q :=
  if py_gt x 0 then approx_atan (y / x)
  else if py_gt 0 x then
    if py_gt 0 y then snap (approx_atan (y / x) - approx_pi)
    else snap (approx_atan (y / x) + approx_pi)
  else if py_gt y 0 then snap (approx_pi / 2)
  else if py_gt 0 y then snap (- approx_pi / 2)
  else 0.

Fixpoint newton_sqrt (steps : nat) (a x : Q) : Q :=
  match steps with
  | O => x
  | S steps => newton_sqrt steps a (snap ((x + a / x) / 2))
  end.

Definition approx_sqrt (a : Q) : Q :=
  if py_gt a 0 then newton_sqrt 12 a 1 else 0.

(** The value of a string of decimal digits, most significant first. *)
Fixpoint digits_value (acc : N) (s : string) : option N :=
  match s with
  | EmptyString => Some acc
  | String c s =>
    let d := N_of_ascii c in
    if bool_decide (48 ≤ d ∧ d ≤ 57)%N
    then digits_value (10 * acc + (d - 48))%N s
    else None
  end.

(** [float] on an unsigned or negated decimal integer numeral. *)
Definition decimal_of_str (s : string) : option pyfloat :=
  match s with
  | EmptyString => None
  | String "-"%char EmptyString => None
  | String "-"%char s =>
    (λ n, Finite (- inject_Z (Z.of_N n))) <$> digits_value 0 s
  | _ => (λ n, Finite (inject_Z (Z.of_N n))) <$> digits_value 0 s
  end.

(** A function of finite values as a [math] function: NaN goes through,
    an infinity is handled by [at_infinity]. *)
Definition on_finite (f : Q → outcome pyfloat)
    (at_infinity : bool → outcome pyfloat) (x : pyfloat) : outcome pyfloat :=
  match x with
  | Finite q => f q
  | NaN => Ok NaN
  | Infinity negative => at_infinity negative
  end.

(** [math.atan2]: an infinite argument gives a multiple of pi/4. *)
Definition runtime_atan2 (y x : pyfloat) : outcome pyfloat :=
  let signed (negative : bool) (q : Q) := Finite (if negative then - q else q)%Q in
  Ok match y, x with
     | NaN, _ | _, NaN => NaN
     | Finite y, Finite x => Finite (approx_atan2 y x)
     | Infinity s, Finite _ => signed s (snap (approx_pi / 2))
     | Infinity s, Infinity false => signed s (snap (approx_pi / 4))
     | Infinity s, Infinity true => signed s (snap (3 * approx_pi / 4))
     | Finite _, Infinity false => Finite 0
     | Finite y, Infinity true => signed (py_gt 0 y) (snap approx_pi)
     end.

Definition approx_runtime : PyRuntime := {|
  radians :=
    on_finite (λ x, Ok (Finite (snap (x * approx_pi / 180))))
              (λ negative, Ok (Infinity negative));
  degrees :=
    on_finite (λ x, Ok (Finite (snap (x * 180 / approx_pi))))
              (λ negative, Ok (Infinity negative));
  sin := on_finite (λ x, Ok (Finite (approx_sin x))) (λ _, Raise ValueError);
  cos := on_finite (λ x, Ok (Finite (approx_cos x))) (λ _, Raise ValueError);
  atan2 := runtime_atan2;
  sqrt :=
    on_finite (λ x, if py_gt 0 x then Raise ValueError
                    else Ok (Finite (approx_sqrt x)))
              (λ negative, if negative then Raise ValueError
                           else Ok (Infinity false));
  float_of_str := decimal_of_str
|}.

(** Keyframes and settings for the examples. *)
Definition keyframe_at (lat lon alt : Q) : json :=
  JDict [ ("coordinate",
           JDict [ ("latitude", JFloat (Finite lat));
                   ("longitude", JFloat (Finite lon));
                   ("altitude", JFloat (Finite alt)) ]);
          ("rotation", JDict []) ].

(** A keyframe that has an altitude but no latitude and no longitude. *)
Definition keyframe_altitude_only (alt : Q) : json :=
  JDict [ ("coordinate", JDict [ ("altitude", JFloat (Finite alt)) ]);
          ("rotation", JDict []) ].

(** A keyframe whose coordinate has no field at all. *)
Definition keyframe_without_fields : json :=
  JDict [ ("coordinate", JDict []); ("rotation", JDict []) ].

Definition no_settings : MissionSettings := {|
  finishAction := None; rcLostAction := None; transitionalSpeed := None;
  altitudeType := None; speed := None; waypointSpeed := None;
  turnDamping := None; desired_waypoints := None; fixed_pitch := None;
  heading_mode := None; manual_heading := None
|}.

Definition with_heading (mode : string) (angle : option pyfloat)
    : MissionSettings := {|
  finishAction := None; rcLostAction := None; transitionalSpeed := None;
  altitudeType := Some "relativeToStartPoint"; speed := Some (Finite 5);
  waypointSpeed := None; turnDamping := None; desired_waypoints := None;
  fixed_pitch := Some (Finite (-45)); heading_mode := Some mode;
  manual_heading := angle
|}.

Definition three_keyframes : list tagged_keyframe :=
  [ (keyframe_at 10 20 100, "a.json");
    (keyframe_at (101 # 10) 20 120, "a.json");
    (keyframe_at (101 # 10) (201 # 10) 90, "b.json") ].

Definition gap_keyframes : list tagged_keyframe :=
  [ (keyframe_at 10 20 100, "a.json");
    (keyframe_altitude_only 120, "a.json");
    (keyframe_at (101 # 10) (201 # 10) 90, "b.json") ].

(** The first keyframe has an altitude only, the second a full coordinate. *)
Definition late_start_keyframes : list tagged_keyframe :=
  [ (keyframe_altitude_only 100, "a.json");
    (keyframe_at 10 20 50, "a.json") ].

Definition altitude_only_keyframes : list tagged_keyframe :=
  [ (keyframe_altitude_only 100, "a.json") ].

(** The first keyframe has no altitude. *)
Definition no_altitude_keyframes : list tagged_keyframe :=
  [ (keyframe_without_fields, "a.json");
    (keyframe_at 10 20 50, "a.json") ].

(** The second keyframe has a latitude that is an int beyond the doubles. *)
Definition overflow_keyframes : list tagged_keyframe :=
  [ (keyframe_at 10 20 100, "a.json");
    (JDict [ ("coordinate",
              JDict [ ("latitude", JInt (10 ^ 400));
                      ("longitude", JFloat (Finite 20));
                      ("altitude", JFloat (Finite 50)) ]);
             ("rotation", JDict []) ], "a.json") ].

(** A text that holds the two markers and is no XML document. *)
Definition unbalanced_reference : string :=
  "<wpml:missionConfig><wpml:droneInfo>".

(** ** What the placemark loop appends *)

Section appended.
Context `{PyRuntime}.
Variable mission_settings : MissionSettings.
Variable file_pois : gmap string (pyfloat * pyfloat).

(** [pm] is what one round of the placemark loop appends to the folder for
    the keyframe [tkf] at position [i]: an empty [Placemark] when the parse
    of the coordinate raises an exception that is caught, else a
    [Placemark] with the children built from some state of the id
    counters. *)
Definition placemark_appended (num_keyframes : Z)
    (start_altitude target_pitch : pyfloat) (i : Z) (tkf : tagged_keyframe)
    (pm : xml) : Prop :=
  match parse_coordinate tkf.1 with
  | Raise e => caught e = true ∧ pm = node "Placemark" []
  | Ok (lat, lon, alt_amsl) =>
    ∃ st children group_counter action_counter,
      placemark_children mission_settings file_pois num_keyframes
        start_altitude target_pitch st i tkf.2 lat lon alt_amsl
      = Ok (children, group_counter, action_counter) ∧
      pm = node "Placemark" children
  end.

(** [pms] are the placemarks appended for the keyframes [kfs], which sit at
    the positions from [i] on. *)
Fixpoint placemarks_appended (num_keyframes : Z)
    (start_altitude target_pitch : pyfloat) (i : Z)
    (kfs : list tagged_keyframe) (pms : list xml) : Prop :=
  match kfs, pms with
  | [], [] => True
  | tkf :: kfs, pm :: pms =>
    placemark_appended num_keyframes start_altitude target_pitch i tkf pm ∧
    placemarks_appended num_keyframes start_altitude target_pitch (i + 1) kfs pms
  | _, _ => False
  end.

(** The document of a successful build. *)
Definition mission_document (total_distance_meters duration : pyfloat)
    (pms : list xml) : xml :=
  Element "kml" [ ("xmlns", "http://www.opengis.net/kml/2.2") ] None
    [ node "Document"
        [ mission_config mission_settings;
          node "Folder" (folder_header mission_settings total_distance_meters
                                       duration
                         ++ pms) ] ].

End appended.

(** * Properties *)

(** ** Rounding and sampling *)

Lemma py_round_bounds (x : Q) :
  (inject_Z (py_round x) - (1 # 2) <= x)%Q ∧
  (x <= inject_Z (py_round x) + (1 # 2))%Q.
Proof.
  unfold py_round.
  pose proof (Qfloor_le x) as Hlo. pose proof (Qlt_floor x) as Hhi.
  rewrite inject_Z_plus in Hhi. change (inject_Z 1) with 1%Q in Hhi.
  destruct (Qcompare_spec (x - inject_Z (Qfloor x)) (1 # 2)) as [Heq|Hlt|Hgt].
  - destruct (Z.even (Qfloor x)); rewrite ?inject_Z_plus;
      change (inject_Z 1) with 1%Q; lra.
  - lra.
  - rewrite inject_Z_plus. change (inject_Z 1) with 1%Q. lra.
Qed.

(** An integer within one half of [x] on both sides of a gap wider than one
    keeps the order. *)
Lemma py_round_lt (x y : Q) : (x + 1 < y)%Q → (py_round x < py_round y)%Z.
Proof.
  intros Hxy.
  destruct (py_round_bounds x) as [Hx _], (py_round_bounds y) as [_ Hy].
  apply Z.lt_nge. intros Hle. rewrite Zle_Qle in Hle. lra.
Qed.

Lemma py_round_between (x : Q) (lo hi : Z) :
  (inject_Z lo <= x)%Q → (x <= inject_Z hi)%Q →
  (lo ≤ py_round x ≤ hi)%Z.
Proof.
  intros Hlo Hhi. destruct (py_round_bounds x) as [H1 H2].
  split.
  - apply Z.lt_pred_le, Z.lt_nge. intros Hle. rewrite Zle_Qle in Hle.
    unfold Z.pred in Hle. rewrite inject_Z_plus in Hle.
    change (inject_Z (-1)) with (-1)%Q in Hle. lra.
  - apply Z.lt_succ_r, Z.lt_nge. intros Hle. rewrite Zle_Qle in Hle.
    unfold Z.succ in Hle. rewrite inject_Z_plus in Hle.
    change (inject_Z 1) with 1%Q in Hle. lra.
Qed.

Lemma inject_Z_pos (z : Z) : (0 < z)%Z → (0 < inject_Z z)%Q.
Proof. intros Hz. rewrite Zlt_Qlt in Hz. exact Hz. Qed.


(** An integer within one half of [x] is the one [py_round] gives. *)
Lemma py_round_near (x : Q) (lo hi : Z) :
  (inject_Z lo - (1 # 2) < x)%Q → (x < inject_Z hi + (1 # 2))%Q →
  (lo ≤ py_round x ≤ hi)%Z.
Proof.
  intros Hlo Hhi. destruct (py_round_bounds x) as [H1 H2].
  split.
  - apply Z.lt_pred_le, Z.lt_nge. intros Hle. rewrite Zle_Qle in Hle.
    unfold Z.pred in Hle. rewrite inject_Z_plus in Hle.
    change (inject_Z (-1)) with (-1)%Q in Hle. lra.
  - apply Z.lt_succ_r, Z.lt_nge. intros Hle. rewrite Zle_Qle in Hle.
    unfold Z.succ in Hle. rewrite inject_Z_plus in Hle.
    change (inject_Z 1) with 1%Q in Hle. lra.
Qed.

(** ** Rounding to the nearest double *)

Lemma pow2_pos (k : Z) : (0 < 2 ^ k)%Q.
Proof. by apply Qpower_0_lt. Qed.

Lemma pow2_succ (k : Z) : (2 ^ (k + 1) == 2 * 2 ^ k)%Q.
Proof. rewrite Qpower_plus by done. rewrite Qpower_1_r. ring. Qed.

Lemma pow2_le (k k' : Z) : (k ≤ k')%Z → (2 ^ k <= 2 ^ k')%Q.
Proof. intros Hk. by apply Qpower_le_compat_l. Qed.

Lemma pow2_inject (k : Z) : (0 ≤ k)%Z → (2 ^ k == inject_Z (2 ^ k))%Q.
Proof. intros Hk. rewrite Zpower_Qpower by done. reflexivity. Qed.

(** [2 ^ binade a <= a]: the lower end of the test of [binade], or the
    bounds of the two logarithms. *)
Lemma binade_le (a : Q) : (0 < a)%Q → (2 ^ binade a <= a)%Q.
Proof.
  intros Ha. unfold binade.
  set (n := Qnum a). set (d := Z.pos (Qden a)).
  destruct (Qle_bool (2 ^ (Z.log2 n - Z.log2 d)) a) eqn:Htest.
  { by apply Qle_bool_iff. }
  assert (0 < n)%Z as Hn.
  { destruct a as [num den]. unfold Qlt in Ha. simpl in *. subst n. lia. }
  assert (0 < d)%Z as Hd by (subst d; lia).
  destruct (Z.log2_spec n Hn) as [Hnlo _].
  destruct (Z.log2_spec d Hd) as [_ Hdhi].
  pose proof (Z.log2_nonneg n) as Hln. pose proof (Z.log2_nonneg d) as Hld.
  replace (Z.log2 n - Z.log2 d - 1)%Z with (Z.log2 n - Z.succ (Z.log2 d))%Z
    by lia.
  rewrite Qpower_minus by done.
  rewrite (pow2_inject (Z.log2 n)), (pow2_inject (Z.succ (Z.log2 d))) by lia.
  assert (a == inject_Z n / inject_Z d)%Q as ->.
  { destruct a as [num den]. subst n d. simpl. apply Qmake_Qdiv. }
  assert (0 < inject_Z d)%Q as Hdq by (rewrite <- (Zlt_Qlt 0); done).
  assert (0 < inject_Z (2 ^ Z.succ (Z.log2 d)))%Q as Hpq.
  { rewrite <- (Zlt_Qlt 0). lia. }
  apply Qle_shift_div_l; [done|]. unfold Qdiv at 1.
  rewrite <- Qmult_assoc, (Qmult_comm (/ _)), Qmult_assoc.
  apply Qle_shift_div_r; [done|].
  rewrite <- !inject_Z_mult, <- Zle_Qle. nia.
Qed.

Lemma binade_lt (a : Q) (k : Z) : (0 < a)%Q → (a < 2 ^ k)%Q → (binade a < k)%Z.
Proof.
  intros Ha Hk. pose proof (binade_le a Ha) as Hle.
  apply (Qpower_lt_compat_l_inv 2); [|done]. lra.
Qed.

Lemma Qabs_of_pos (x : Q) : (0 <= x)%Q → Qabs x = x.
Proof.
  destruct x as [n d]. unfold Qle, Qabs. simpl. intros Hn.
  f_equal. apply Z.abs_eq. lia.
Qed.

(** A positive value below [2^k] moves by at most half a unit in the last
    place, that is by [2^(k-54)], when it is rounded to a double. *)
Lemma binary64_round_error (x : Q) (k : Z) :
  (0 < x)%Q → (x < 2 ^ k)%Q → (-1021 ≤ k)%Z →
  (0 <= binary64_round x)%Q ∧
  (x - 2 ^ (k - 54) <= binary64_round x)%Q ∧
  (binary64_round x <= x + 2 ^ (k - 54))%Q.
Proof.
  intros Hx Hk Hmin. unfold binary64_round.
  assert (Qeq_bool x 0 = false) as ->.
  { apply not_true_is_false. intros Heq%Qeq_bool_eq. lra. }
  assert (Qle_bool 0 x = true) as -> by (apply Qle_bool_iff; lra).
  rewrite (Qabs_of_pos x) by lra.
  pose proof (binade_lt x k Hx Hk) as Hbin.
  set (e := Z.max (binade x) (-1022)).
  assert (e + 1 ≤ k)%Z as He by lia.
  set (ulp := (2 ^ (e - 52))%Q).
  assert (0 < ulp)%Q as Hulp by apply pow2_pos.
  assert (ulp <= 2 * 2 ^ (k - 54))%Q as Hbound.
  { rewrite <- pow2_succ. apply pow2_le. lia. }
  destruct (py_round_bounds (x / ulp)) as [Hlo Hhi].
  set (m := inject_Z (py_round (x / ulp))) in *.
  assert (x == x / ulp * ulp)%Q as Hscale by (field; lra).
  assert (0 <= m)%Q as Hm.
  { assert (0 < x / ulp)%Q by (apply Qlt_shift_div_l; lra).
    unfold m in *. change 0%Q with (inject_Z 0). rewrite <- Zle_Qle.
    apply Z.lt_pred_le, Z.lt_nge. intros Hle. rewrite Zle_Qle in Hle.
    change (inject_Z (Z.pred 0)) with (-1)%Q in Hle. lra. }
  assert ((m - (1 # 2)) * ulp <= x / ulp * ulp)%Q as H1.
  { apply Qmult_le_compat_r; lra. }
  assert (x / ulp * ulp <= (m + (1 # 2)) * ulp)%Q as H2.
  { apply Qmult_le_compat_r; lra. }
  assert (0 <= m * ulp)%Q as H3 by (apply Qmult_le_0_compat; lra).
  split_and!; lra.
Qed.

Section sampling.
Local Open Scope Z_scope.
Variables M T : Z.
Hypothesis HT : 1 < T.
Hypothesis HTM : T < M.

(** The ideal index of the sampling loop, before it is rounded to a
    double. *)
Let ideal (i : Z) : Q := (inject_Z (i * (M - 1)) / inject_Z (T - 1))%Q.

Lemma ideal_scaled (i : Z) :
  (ideal i * inject_Z (T - 1) == inject_Z (i * (M - 1)))%Q.
Proof using HT.
  unfold ideal. field. intros Heq.
  pose proof (inject_Z_pos (T - 1)) as Hpos. lapply Hpos; [lra | lia].
Qed.

Lemma ideal_range (i : Z) :
  0 ≤ i ≤ T - 1 → (0 <= ideal i)%Q ∧ (ideal i <= inject_Z (M - 1))%Q.
Proof using HT HTM.
  intros Hi. pose proof (ideal_scaled i) as Hs.
  assert (0 < inject_Z (T - 1))%Q as Hpos.
  { apply inject_Z_pos. lia. }
  assert (inject_Z 0 <= inject_Z (i * (M - 1)))%Q as H0.
  { rewrite <- Zle_Qle. nia. }
  assert (inject_Z (i * (M - 1)) <= inject_Z ((M - 1) * (T - 1)))%Q as H1.
  { rewrite <- Zle_Qle. nia. }
  rewrite (inject_Z_mult (M - 1) (T - 1)) in H1.
  change (inject_Z 0) with 0%Q in *.
  split.
  - apply Qnot_lt_le. intros Hneg.
    assert (ideal i * inject_Z (T - 1) < 0 * inject_Z (T - 1))%Q.
    { apply Qmult_lt_compat_r; lra. }
    lra.
  - apply Qnot_lt_le. intros Hbig.
    assert (inject_Z (M - 1) * inject_Z (T - 1)
            < ideal i * inject_Z (T - 1))%Q.
    { apply Qmult_lt_compat_r; lra. }
    lra.
Qed.

(** The double of an ideal index is within [2^(k-54)] of it when the
    sequence is shorter than [2^k]. *)
Lemma ideal_rounded (i k : Z) :
  0 ≤ i ≤ T - 1 → 1 ≤ k → M - 1 < 2 ^ k →
  (0 <= binary64_round (ideal i))%Q ∧
  (ideal i - 2 ^ (k - 54) <= binary64_round (ideal i))%Q ∧
  (binary64_round (ideal i) <= ideal i + 2 ^ (k - 54))%Q.
Proof using HT HTM.
  intros Hi Hk HM. destruct (ideal_range i Hi) as [Hlo Hhi].
  pose proof (pow2_pos (k - 54)) as Hpow.
  destruct (Qeq_bool (ideal i) 0) eqn:Hzero.
  - unfold binary64_round. rewrite Hzero.
    apply Qeq_bool_eq in Hzero. rewrite Hzero. split_and!; lra.
  - apply binary64_round_error; [| |lia].
    + apply Qeq_bool_neq in Hzero. lra.
    + rewrite pow2_inject by lia. rewrite Zlt_Qlt in HM. lra.
Qed.

Hypothesis HM : M ≤ 2 ^ 52.

Lemma sample_index_value (i : Z) :
  0 ≤ i ≤ T - 1 →
  sample_index M T i = Ok (sample_value M T i) ∧
  0 ≤ sample_value M T i ≤ M - 1.
Proof using HT HTM HM.
  intros Hi. split; [|unfold sample_value; lia].
  unfold sample_index, int_truediv, sample_value. fold (ideal i).
  rewrite bool_decide_eq_false_2 by lia.
  destruct (ideal_rounded i 52 Hi) as (H0 & _ & Hhi); [lia..|].
  destruct (ideal_range i Hi) as [_ Hideal].
  assert (Qle_bool (2 ^ 1024) (Qabs (binary64_round (ideal i))) = false) as ->.
  { apply not_true_is_false. intros Hle%Qle_bool_iff.
    rewrite Qabs_of_pos in Hle by done.
    pose proof (pow2_le 53 1024 ltac:(lia)) as Hpow.
    assert (inject_Z (M - 1) < inject_Z (2 ^ 52))%Q as Hlt.
    { rewrite <- Zlt_Qlt. lia. }
    assert (2 ^ (52 - 54) == 1 # 4)%Q as Hquarter by reflexivity.
    assert (2 ^ 53 == 2 * inject_Z (2 ^ 52))%Q as Hdouble by reflexivity.
    lra. }
  done.
Qed.

Lemma sample_value_first : sample_value M T 0 = 0.
Proof using HT HTM HM.
  unfold sample_value. fold (ideal 0).
  assert (Qeq_bool (ideal 0) 0 = true) as Hzero.
  { apply Qeq_eq_bool. unfold ideal. simpl. unfold Qdiv.
    rewrite Qmult_0_l. reflexivity. }
  unfold binary64_round. rewrite Hzero.
  change (py_round 0) with 0. lia.
Qed.

Lemma sample_value_last : sample_value M T (T - 1) = M - 1.
Proof using HT HTM HM.
  unfold sample_value. fold (ideal (T - 1)).
  destruct (ideal_rounded (T - 1) 52) as (_ & Hlo & Hhi); [lia..|].
  pose proof (ideal_scaled (T - 1)) as Hs.
  assert (0 < inject_Z (T - 1))%Q as Hpos.
  { apply inject_Z_pos. lia. }
  assert (ideal (T - 1) == inject_Z (M - 1))%Q as Heq.
  { apply (Qmult_inj_r _ _ (inject_Z (T - 1))); [lra|].
    rewrite Hs, inject_Z_mult. ring. }
  assert (2 ^ (52 - 54) == 1 # 4)%Q as Hquarter by reflexivity.
  destruct (py_round_near (binary64_round (ideal (T - 1))) (M - 1) (M - 1))
    as [? ?]; [lra..|].
  lia.
Qed.

(** Sequences no longer than [2^26]: the doubles of two successive ideal
    indices are more than one apart, so their roundings differ. *)
Lemma sample_value_step (i : Z) :
  M ≤ 2 ^ 26 → 0 ≤ i → i + 1 ≤ T - 1 →
  sample_value M T i < sample_value M T (i + 1).
Proof using HT HTM HM.
  intros Hsmall H0 H1.
  destruct (ideal_rounded i 26) as (_ & _ & Hi); [lia..|].
  destruct (ideal_rounded (i + 1) 26) as (_ & Hj & _); [lia..|].
  destruct (ideal_range i) as [Hilo Hihi]; [lia|].
  destruct (ideal_range (i + 1)) as [Hjlo Hjhi]; [lia|].
  destruct (ideal_rounded i 52) as (Hi0 & _ & Hiq); [lia..|].
  destruct (ideal_rounded (i + 1) 52) as (Hj0 & _ & Hjq); [lia..|].
  assert (2 ^ (26 - 54) == 1 # 268435456)%Q as Heps by reflexivity.
  assert (2 ^ (52 - 54) == 1 # 4)%Q as Hquarter by reflexivity.
  pose proof (ideal_scaled i) as Hsi. pose proof (ideal_scaled (i + 1)) as Hsj.
  assert (0 < inject_Z (T - 1))%Q as Hpos.
  { apply inject_Z_pos. lia. }
  assert (inject_Z (T - 1) + 1 <= inject_Z (M - 1))%Q as Hgap.
  { change 1%Q with (inject_Z 1). rewrite <- inject_Z_plus, <- Zle_Qle. lia. }
  assert (inject_Z (T - 1) <= 67108864)%Q as Hsize.
  { change 67108864%Q with (inject_Z (2 ^ 26)). rewrite <- Zle_Qle. lia. }
  replace ((i + 1) * (M - 1)) with (i * (M - 1) + (M - 1)) in Hsj by lia.
  rewrite inject_Z_plus in Hsj.
  assert (binary64_round (ideal i) + 1 < binary64_round (ideal (i + 1)))%Q
    as Hlt.
  { apply Qnot_le_lt. intros Hle.
    assert (ideal (i + 1) * inject_Z (T - 1)
            <= (ideal i + 1 + (1 # 134217728)) * inject_Z (T - 1))%Q as Hmul.
    { apply Qmult_le_compat_r; lra. }
    lra. }
  apply py_round_lt in Hlt.
  assert (inject_Z (M - 1) < inject_Z (2 ^ 52))%Q as HMq.
  { rewrite <- Zlt_Qlt. lia. }
  destruct (py_round_near (binary64_round (ideal i)) 0 (M - 1)) as [? ?];
    [change (inject_Z 0) with 0%Q; lra..|].
  destruct (py_round_near (binary64_round (ideal (i + 1))) 0 (M - 1)) as [? ?];
    [change (inject_Z 0) with 0%Q; lra..|].
  unfold sample_value. fold (ideal i) (ideal (i + 1)). lia.
Qed.

End sampling.
(** ** [thin_keyframes] *)

Lemma fmap_seqZ_Sorted (f : Z → Z) (n : nat) (a : Z) :
  (∀ i, a ≤ i → i + 1 < a + Z.of_nat n → f i < f (i + 1))%Z →
  Sorted Z.lt (f <$> seqZ a (Z.of_nat n)).
Proof.
  revert a. induction n as [|n IH]; intros a Hstep.
  - constructor.
  - rewrite seqZ_cons by lia.
    replace (Z.pred (Z.of_nat (S n))) with (Z.of_nat n) by lia.
    rewrite fmap_cons. constructor.
    + apply IH. intros i Hi1 Hi2. apply Hstep; lia.
    + destruct n as [|n]; [constructor|].
      rewrite seqZ_cons by lia. rewrite fmap_cons. constructor.
      replace (Z.succ a) with (a + 1)%Z by lia. apply Hstep; lia.
Qed.

Lemma sample_loop_values (M T : Z) (range : list Z) (s : gset Z) :
  Forall (λ i, sample_index M T i = Ok (sample_value M T i)) range →
  sample_loop M T range s = Ok (s ∪ list_to_set (sample_value M T <$> range)).
Proof.
  intros Hrange. revert s.
  induction Hrange as [|i range Hi _ IH]; intros s; simpl.
  - f_equal. set_solver.
  - rewrite Hi. simpl. rewrite IH. f_equal. set_solver.
Qed.

Lemma mapM_outcome_Ok {A B} (f : A → outcome B) (l : list A) (k : list B) :
  Forall2 (λ x y, f x = Ok y) l k → mapM f l = Ok k.
Proof.
  induction 1 as [|x y l k Hxy _ IH]; simpl; [done|].
  rewrite Hxy. simpl. rewrite IH. done.
Qed.

Lemma list_getitem_Ok {A} (l : list A) (idx : Z) (x : A) :
  (0 ≤ idx)%Z → l !! Z.to_nat idx = Some x → list_getitem l idx = Ok x.
Proof.
  intros Hidx Hx. unfold list_getitem.
  rewrite (bool_decide_eq_false_2 (idx < 0)%Z) by lia. simpl.
  rewrite (bool_decide_eq_false_2 (idx < 0)%Z) by lia.
  rewrite Hx. done.
Qed.

(** Picking a list at strictly increasing positions gives a sublist. *)
Lemma increasing_lookups_sublist {A} (out : list A) :
  ∀ (idxs : list nat) (l : list A),
    StronglySorted lt idxs →
    Forall2 (λ i x, l !! i = Some x) idxs out →
    out `sublist_of` l.
Proof.
  induction out as [|x out IH]; intros idxs l Hsorted Hpick.
  - apply sublist_nil_l.
  - destruct idxs as [|i idxs]; [by apply Forall2_nil_cons_inv in Hpick|].
    apply Forall2_cons_1 in Hpick as [Hx Hpick].
    apply StronglySorted_cons in Hsorted as [Hhd Hsorted].
    rewrite <- (take_drop_middle l i x Hx).
    apply sublist_inserts_l, sublist_skip.
    apply (IH ((λ j, j - S i)%nat <$> idxs)).
    + clear -Hhd Hsorted. induction Hsorted as [|j idxs Hsorted IHs Hj]; simpl.
      { constructor. }
      apply Forall_cons in Hhd as [Hij Hhd]. constructor; [by apply IHs|].
      rewrite Forall_fmap. rewrite Forall_forall in Hj, Hhd |- *.
      intros k Hk. simpl. specialize (Hj _ Hk). specialize (Hhd _ Hk). lia.
    + clear -Hhd Hpick. induction Hpick as [|j y idxs out Hy _ IHp]; simpl.
      { constructor. }
      apply Forall_cons in Hhd as [Hij Hhd]. constructor; [|by apply IHp].
      rewrite lookup_drop. rewrite <- Hy. f_equal. lia.
Qed.

Lemma lookups_exist {A} (l : list A) (idxs : list nat) :
  Forall (λ i, i < length l)%nat idxs →
  ∃ out, Forall2 (λ i x, l !! i = Some x) idxs out.
Proof.
  induction 1 as [|i idxs Hi _ [out IH]].
  - exists []. constructor.
  - destruct (lookup_lt_is_Some_2 l i Hi) as [x Hx].
    exists (x :: out). by constructor.
Qed.


Lemma size_list_to_set_le (l : list Z) :
  (size (list_to_set l : gset Z) ≤ length l)%nat ∧
  (size (list_to_set l : gset Z) = length l → NoDup l).
Proof.
  induction l as [|x l [IHle IHeq]]; simpl.
  - split; [done|]. intros _. constructor.
  - destruct (decide (x ∈ l)) as [Hin|Hnotin].
    + replace ({[x]} ∪ list_to_set l : gset Z) with (list_to_set l : gset Z)
        by set_solver.
      split; [lia|]. lia.
    + rewrite size_union by set_solver. rewrite size_singleton.
      split; [lia|]. intros Heq. constructor; [done|]. apply IHeq. lia.
Qed.

(** Two positions of a list with the same element: the set of its elements
    is smaller than the list. *)
Lemma size_list_to_set_collision (l : list Z) (i j : nat) (x : Z) :
  l !! i = Some x → l !! j = Some x → i ≠ j →
  (size (list_to_set l : gset Z) < length l)%nat.
Proof.
  intros Hi Hj Hne. destruct (size_list_to_set_le l) as [Hle Heq].
  destruct (decide (size (list_to_set l : gset Z) = length l)) as [Hsize|];
    [|lia].
  exfalso. apply Hne. by eapply NoDup_lookup; [apply Heq| |].
Qed.

Lemma sorted_head (l : list Z) (lo : Z) :
  StronglySorted Z.lt l → Forall (λ x, lo ≤ x)%Z l → lo ∈ l → head l = Some lo.
Proof.
  intros Hsorted Hlo Hin. destruct l as [|x l]; [by apply elem_of_nil in Hin|].
  simpl. f_equal. apply StronglySorted_cons in Hsorted as [Hx _].
  apply Forall_cons in Hlo as [Hxlo _].
  apply elem_of_cons in Hin as [->|Hin]; [done|].
  rewrite Forall_forall in Hx. specialize (Hx _ Hin). lia.
Qed.

Lemma sorted_last (l : list Z) (hi : Z) :
  StronglySorted Z.lt l → Forall (λ x, x ≤ hi)%Z l → hi ∈ l → last l = Some hi.
Proof.
  induction l as [|x l IH]; intros Hsorted Hhi Hin;
    [by apply elem_of_nil in Hin|].
  apply StronglySorted_cons in Hsorted as [Hx Hsorted].
  apply Forall_cons in Hhi as [Hxhi Hhi].
  destruct l as [|y l].
  - apply list_elem_of_singleton in Hin as ->. done.
  - change (last (x :: y :: l)) with (last (y :: l)). apply IH; [done..|].
    apply elem_of_cons in Hin as [->|Hin]; [|done].
    apply Forall_cons in Hx as [Hxy _]. apply Forall_cons in Hhi as [Hyhi _].
    lia.
Qed.

Section thinning.
Local Open Scope Z_scope.
Context {A : Type}.
Variable keyframes_list : list A.
Variable T : Z.
Let M := Z.of_nat (length keyframes_list).
Hypothesis HT : 1 < T.
Hypothesis HTM : T < M.
Hypothesis HM : M ≤ 2 ^ 52.

(** The positions the sampling loop selects, in the order of the loop. *)
Let sampled : list Z := sample_value M T <$> seqZ 0 T.

Lemma sampled_range (idx : Z) : idx ∈ sampled → 0 ≤ idx ≤ M - 1.
Proof using HT HTM HM.
  unfold sampled. intros (i & -> & Hi)%list_elem_of_fmap.
  apply elem_of_seqZ in Hi. apply sample_index_value; lia.
Qed.

Lemma sampled_ends : 0 ∈ sampled ∧ M - 1 ∈ sampled.
Proof using HT HTM HM.
  unfold sampled. split; apply list_elem_of_fmap.
  - exists 0. split; [symmetry; by apply sample_value_first|].
    apply elem_of_seqZ. lia.
  - exists (T - 1). split; [symmetry; by apply sample_value_last|].
    apply elem_of_seqZ. lia.
Qed.

(** What [thin_keyframes] selects: the sorted elements of the set of the
    sampled positions. *)
Lemma thin_keyframes_selects :
  let sorted := merge_sort Z.le (elements (list_to_set sampled : gset Z)) in
  ∃ thinned,
    thin_keyframes keyframes_list (Some T) = Ok thinned ∧
    Forall2 (λ idx x, keyframes_list !! Z.to_nat idx = Some x) sorted thinned ∧
    StronglySorted Z.lt sorted ∧
    Forall (λ idx, 0 ≤ idx ≤ M - 1) sorted ∧
    head sorted = Some 0 ∧
    last sorted = Some (M - 1) ∧
    length thinned = size (list_to_set sampled : gset Z).
Proof using HT HTM HM.
  intros sorted.
  destruct sampled_ends as [H0 HM1].
  assert (sorted ≡ₚ elements (list_to_set sampled : gset Z)) as Hperm.
  { apply merge_sort_Permutation. }
  assert (∀ idx, idx ∈ sorted ↔ idx ∈ sampled) as Hin.
  { intros idx. rewrite Hperm, elem_of_elements, elem_of_list_to_set. done. }
  assert (Forall (λ idx, 0 ≤ idx ≤ M - 1) sorted) as Hrange.
  { apply Forall_forall. intros idx Hidx. by apply sampled_range, Hin. }
  assert (StronglySorted Z.lt sorted) as Hsorted.
  { assert (StronglySorted Z.le sorted) as Hle.
    { apply StronglySorted_merge_sort; apply _. }
    assert (NoDup sorted) as Hnodup.
    { rewrite Hperm. apply NoDup_elements. }
    clear -Hle Hnodup. induction Hle as [|x l _ IH Hx]; [constructor|].
    apply NoDup_cons in Hnodup as [Hnotin Hnodup].
    constructor; [by apply IH|].
    rewrite Forall_forall in Hx |- *. intros y Hy.
    specialize (Hx _ Hy). assert (x ≠ y) by (by intros ->). lia. }
  assert (Forall (λ idx, (Z.to_nat idx < length keyframes_list)%nat) sorted)
    as Hbound.
  { eapply Forall_impl; [exact Hrange|]. simpl. intros idx Hidx.
    unfold M in Hidx. lia. }
  assert (∃ thinned,
            Forall2 (λ idx x, keyframes_list !! Z.to_nat idx = Some x)
                    sorted thinned) as [thinned Hpick].
  { clear -Hbound. induction Hbound as [|idx l Hidx _ [out IH]].
    - exists []. constructor.
    - destruct (lookup_lt_is_Some_2 keyframes_list _ Hidx) as [x Hx].
      exists (x :: out). by constructor. }
  exists thinned. split_and!; try done.
  - unfold thin_keyframes. cbv zeta. fold M.
    rewrite bool_decide_eq_false_2 by lia.
    rewrite sample_loop_values.
    2:{ apply Forall_forall. intros i Hi%elem_of_seqZ.
        apply sample_index_value; lia. }
    fold sampled. cbn [mbind outcome_bind].
    replace (∅ ∪ list_to_set sampled ∪ {[0]} ∪ {[M - 1]} : gset Z)
      with (list_to_set sampled : gset Z) by set_solver.
    fold sorted. apply mapM_outcome_Ok.
    clear -Hpick Hrange. induction Hpick as [|idx x s t Hx _ IH];
      constructor.
    + apply list_getitem_Ok; [|done].
      apply Forall_cons in Hrange as [? _]. lia.
    + apply IH. by apply Forall_cons in Hrange as [_ ?].
  - apply sorted_head; [done| |by apply Hin].
    eapply Forall_impl; [exact Hrange|]. simpl. lia.
  - apply sorted_last; [done| |by apply Hin].
    eapply Forall_impl; [exact Hrange|]. simpl. lia.
  - rewrite <- (Forall2_length _ _ _ Hpick). unfold sorted.
    rewrite merge_sort_Permutation. done.
Qed.

(** The number of keyframes kept: at least 2, at most [T], and exactly [T]
    when the sequence is no longer than [2^26]. *)
Lemma sampled_size :
  (2 ≤ size (list_to_set sampled : gset Z) ≤ Z.to_nat T)%nat ∧
  (M ≤ 2 ^ 26 → size (list_to_set sampled : gset Z) = Z.to_nat T).
Proof using HT HTM HM.
  destruct sampled_ends as [H0 HM1].
  assert (length sampled = Z.to_nat T) as Hlen.
  { unfold sampled. by rewrite length_fmap, length_seqZ. }
  destruct (size_list_to_set_le sampled) as [Hle _].
  split_and!.
  - assert (({[0]} ∪ {[M - 1]} : gset Z) ⊆ list_to_set sampled) as Hsub
      by set_solver.
    apply subseteq_size in Hsub.
    rewrite size_union in Hsub by (apply disjoint_singleton_l; set_solver by lia).
    by rewrite !size_singleton in Hsub.
  - lia.
  - intros Hsmall. rewrite <- Hlen. apply size_list_to_set.
    assert (Sorted Z.lt sampled) as Hs.
    { unfold sampled. rewrite <- (Z2Nat.id T) at 2 by lia.
      apply fmap_seqZ_Sorted. intros i Hi1 Hi2.
      apply sample_value_step; lia. }
    apply (Sorted_StronglySorted _) in Hs.
    clear -Hs. induction Hs as [|x l _ IH Hx]; constructor; [|done].
    intros Hin. rewrite Forall_forall in Hx. specialize (Hx _ Hin). lia.
Qed.

End thinning.

(** On a sequence of 134217733 keyframes thinned to 134217732, the samples
    67108865 and 67108866 fall on the same position.  Their exact quotients
    are 67108865.4999999963 and 67108866.5000000037; the doubles nearest to
    them, which line 57 computes, are 67108865.5 and 67108866.5, and both
    round half to even to 67108866. *)
Lemma sample_value_collision :
  sample_value 134217733 134217732 67108865 = 67108866%Z ∧
  sample_value 134217733 134217732 67108866 = 67108866%Z.
Proof. by vm_compute. Qed.

(** C2 (as worded): the thinned sequence has at least min(M, T) elements.
    Refuted at M = 134217733 and T = 134217732: two samples select the same
    position, so fewer than T keyframes are kept. *)
Lemma thin_keyframes_loses_a_sample :
  ∃ thinned,
    thin_keyframes (replicate (Z.to_nat 134217733) ()) (Some 134217732%Z)
      = Ok thinned ∧
    (Z.of_nat (length thinned) < Z.min 134217733 134217732)%Z.
Proof.
  assert (Z.of_nat (length (replicate (Z.to_nat 134217733) ())) = 134217733%Z)
    as Hlen.
  { rewrite length_replicate. apply Z2Nat.id. lia. }
  destruct (thin_keyframes_selects (replicate (Z.to_nat 134217733) ())
              134217732) as (thinned & Hthin & _ & _ & _ & _ & _ & Hsize).
  { lia. }
  { rewrite Hlen. lia. }
  { rewrite Hlen. lia. }
  exists thinned. split; [exact Hthin|].
  rewrite Hsize, Hlen.
  destruct sample_value_collision as [H1 H2].
  assert (∀ i, (0 ≤ i < 134217732)%Z →
            (sample_value 134217733 134217732 <$> seqZ 0 134217732)
              !! Z.to_nat i = Some (sample_value 134217733 134217732 i))
    as Hlookup.
  { intros i Hi. rewrite list_lookup_fmap.
    rewrite lookup_seqZ_lt by lia. cbn [fmap option_fmap option_map].
    f_equal. f_equal. lia. }
  assert (size (list_to_set
                  (sample_value 134217733 134217732 <$> seqZ 0 134217732)
                : gset Z)
          < length (sample_value 134217733 134217732 <$> seqZ 0 134217732))%nat
    as Hlt.
  { apply (size_list_to_set_collision _ (Z.to_nat 67108865%Z)
             (Z.to_nat 67108866%Z) 67108866%Z).
    - rewrite (Hlookup 67108865%Z) by lia. rewrite H1. reflexivity.
    - rewrite (Hlookup 67108866%Z) by lia. rewrite H2. reflexivity.
    - lia. }
  rewrite length_fmap, length_seqZ in Hlt. lia.
Qed.

(** C2 (amended): for a sequence of length 1 < M ≤ 2^52 and a target
    1 < T < M, [thin_keyframes] returns the keyframes at strictly increasing
    positions of the input (a subsequence); it has at most T and at least 2
    elements, exactly T when M ≤ 2^26, and its first and last elements are
    the first and last keyframes of the input. *)
Theorem thin_keyframes_sampling {A} (keyframes_list : list A) (T : Z) :
  let M := Z.of_nat (length keyframes_list) in
  (1 < M)%Z → (1 < T)%Z → (T < M)%Z → (M ≤ 2 ^ 52)%Z →
  ∃ (idxs : list nat) (thinned : list A),
    thin_keyframes keyframes_list (Some T) = Ok thinned ∧
    Forall2 (λ i x, keyframes_list !! i = Some x) idxs thinned ∧
    StronglySorted lt idxs ∧
    thinned `sublist_of` keyframes_list ∧
    (length thinned ≤ Z.to_nat T)%nat ∧
    (2 ≤ length thinned)%nat ∧
    ((M ≤ 2 ^ 26)%Z → length thinned = Z.to_nat T) ∧
    head thinned = head keyframes_list ∧
    last thinned = last keyframes_list.
Proof.
  intros M HM1 HT HTM HM.
  destruct (thin_keyframes_selects keyframes_list T HT HTM HM)
    as (thinned & Hthin & Hpick & Hsorted & Hrange & Hhead & Hlast & Hsize).
  destruct (sampled_size keyframes_list T HT HTM HM) as [Hbounds Hexact].
  fold M in Hpick, Hsorted, Hrange, Hhead, Hlast, Hsize, Hbounds, Hexact.
  set (sorted := merge_sort Z.le
         (elements (list_to_set (sample_value M T <$> seqZ 0 T) : gset Z)))
    in *.
  assert (Forall2 (λ i x, keyframes_list !! i = Some x)
                  (Z.to_nat <$> sorted) thinned) as Hpick'.
  { by apply Forall2_fmap_l. }
  assert (StronglySorted lt (Z.to_nat <$> sorted)) as Hsorted'.
  { clear -Hsorted Hrange.
    induction Hsorted as [|x l _ IH Hx]; simpl; [constructor|].
    apply Forall_cons in Hrange as [Hx0 Hrange].
    constructor; [by apply IH|].
    rewrite Forall_fmap. rewrite Forall_forall in Hx, Hrange |- *.
    intros y Hy. simpl. specialize (Hx _ Hy). specialize (Hrange _ Hy). lia. }
  exists (Z.to_nat <$> sorted), thinned. split_and!.
  - done.
  - done.
  - done.
  - by eapply increasing_lookups_sublist.
  - lia.
  - lia.
  - intros Hsmall. specialize (Hexact Hsmall). lia.
  - destruct sorted as [|idx sorted']; [done|]. injection Hhead as ->.
    destruct thinned as [|x thinned]; [by apply Forall2_cons_nil_inv in Hpick|].
    apply Forall2_cons_1 in Hpick as [Hx _]. simpl in *.
    by rewrite head_lookup.
  - rewrite !last_lookup. rewrite last_lookup in Hlast.
    pose proof (Forall2_length _ _ _ Hpick) as Hlen.
    rewrite <- Hlen.
    destruct (Forall2_lookup_l _ _ _ _ _ Hpick Hlast) as (x & Hx & Hkx).
    rewrite Hx, <- Hkx. f_equal. unfold M. lia.
Qed.

Lemma thin_keyframes_sampling_witness :
  ∃ idxs thinned,
    thin_keyframes [10; 11; 12; 13; 14; 15]%nat (Some 3%Z) = Ok thinned ∧
    Forall2 (λ i x, [10; 11; 12; 13; 14; 15]%nat !! i = Some x) idxs thinned ∧
    StronglySorted lt idxs ∧
    thinned `sublist_of` [10; 11; 12; 13; 14; 15]%nat ∧
    (length thinned ≤ 3)%nat ∧ (2 ≤ length thinned)%nat ∧
    ((6 ≤ 2 ^ 26)%Z → length thinned = 3%nat) ∧
    head thinned = Some 10%nat ∧ last thinned = Some 15%nat.
Proof.
  apply (thin_keyframes_sampling [10; 11; 12; 13; 14; 15]%nat 3);
    simpl; lia.
Defined.

(** C6: when the target count is absent, at most 1, or at least the length
    of the input, [thin_keyframes] returns its input unchanged. *)
Theorem thin_keyframes_noop {A} (keyframes_list : list A)
    (target_count : option Z) :
  (∀ T, target_count = Some T →
        (T ≤ 1 ∨ Z.of_nat (length keyframes_list) ≤ T)%Z) →
  thin_keyframes keyframes_list target_count = Ok keyframes_list.
Proof.
  intros Hguard. unfold thin_keyframes.
  destruct target_count as [T|]; [|done].
  rewrite bool_decide_eq_true_2; [done|]. by apply Hguard.
Qed.

Lemma thin_keyframes_noop_witness :
  thin_keyframes [10; 11; 12]%nat (Some 3%Z) = Ok [10; 11; 12]%nat.
Proof.
  apply thin_keyframes_noop. intros T [= <-]. simpl. lia.
Defined.

(** ** [calculate_bearing] *)

Lemma py_gt_spec (a b : Q) : py_gt a b = true ↔ (b < a)%Q.
Proof.
  unfold py_gt. destruct (Qcompare_spec a b) as [Heq|Hlt|Hgt].
  - split; [done|]. intros Hlt. rewrite Heq in Hlt. by apply Qlt_irrefl in Hlt.
  - split; [done|]. intros Hgt. exfalso. lra.
  - done.
Qed.

(** [a % 360] lies in [0, 360) and differs from [a] by a multiple of 360. *)
Lemma py_mod_360_range (a : Q) :
  (0 <= py_mod a 360)%Q ∧ (py_mod a 360 < 360)%Q ∧
  (py_mod a 360 == a - 360 * inject_Z (Qfloor (a / 360)))%Q.
Proof.
  unfold py_mod.
  pose proof (Qfloor_le (a / 360)) as Hlo.
  pose proof (Qlt_floor (a / 360)) as Hhi.
  rewrite inject_Z_plus in Hhi. change (inject_Z 1) with 1%Q in Hhi.
  assert (a == 360 * (a / 360))%Q as Ha by (field; done).
  split_and!; lra.
Qed.

(** C8 (as worded): for every pair of coordinates the result lies in
    (-180, 180].  Refuted by a coordinate that is not a number, which the
    JSON reader accepts: the result is NaN, which lies in no interval; with
    an infinite coordinate [math.sin] raises and nothing is returned. *)
Lemma calculate_bearing_not_a_number :
  calculate_bearing (H := approx_runtime)
    NaN (Finite 20) (Finite 11) (Finite 19) = Ok NaN ∧
  calculate_bearing (H := approx_runtime)
    (Infinity false) (Finite 20) (Finite 11) (Finite 19) = Raise ValueError.
Proof. split; vm_compute; reflexivity. Qed.

(** C8 (amended): when the raw bearing [math.degrees(math.atan2(x, y))] is
    a finite number, [calculate_bearing] first wraps it into [0, 360), to a
    value that differs from it by a multiple of 360, then subtracts 360
    exactly when the wrapped value exceeds 180; the result lies in
    (-180, 180] and is the raw bearing up to a multiple of 360.  When the
    raw bearing is NaN or an infinity the result is NaN, and when a [math]
    function raises, so does [calculate_bearing]. *)
Theorem calculate_bearing_range `{PyRuntime} (lat1 lon1 lat2 lon2 : pyfloat) :
  match initial_bearing lat1 lon1 lat2 lon2 with
  | Ok (Finite raw) =>
    ∃ wrapped bearing : Q,
      fmod (fadd (Finite raw) (Finite 360)) (Finite 360) = Ok (Finite wrapped) ∧
      ((0 <= wrapped)%Q ∧ (wrapped < 360)%Q) ∧
      (∃ k : Z, (wrapped == raw + 360 * inject_Z k)%Q) ∧
      calculate_bearing lat1 lon1 lat2 lon2 = Ok (Finite bearing) ∧
      (((180 < wrapped)%Q ∧ bearing = (wrapped - 360)%Q) ∨
       ((wrapped <= 180)%Q ∧ bearing = wrapped)) ∧
      ((-180 < bearing)%Q ∧ (bearing <= 180)%Q) ∧
      (∃ k : Z, (bearing == raw + 360 * inject_Z k)%Q)
  | Ok _ => calculate_bearing lat1 lon1 lat2 lon2 = Ok NaN
  | Raise e => calculate_bearing lat1 lon1 lat2 lon2 = Raise e
  end.
Proof.
  unfold calculate_bearing.
  destruct (initial_bearing lat1 lon1 lat2 lon2) as [[raw| |s]|e];
    [|done..].
  cbn [mbind outcome_bind].
  set (wrapped := py_mod (raw + 360) 360).
  assert (fmod (fadd (Finite raw) (Finite 360)) (Finite 360)
          = Ok (Finite wrapped)) as Hwrap by done.
  rewrite Hwrap. cbn [mbind outcome_bind mret outcome_ret fgt fsub fadd fneg].
  pose proof (py_mod_360_range (raw + 360)) as (Hlo & Hhi & Hmod).
  fold wrapped in Hlo, Hhi, Hmod.
  pose proof (py_gt_spec wrapped 180) as Hgt.
  assert (wrapped == raw + 360 * inject_Z (1 - Qfloor ((raw + 360) / 360)))%Q
    as Hk.
  { rewrite Hmod. unfold Zminus. rewrite inject_Z_plus, inject_Z_opp.
    change (inject_Z 1) with 1%Q. ring. }
  destruct (py_gt wrapped 180).
  - assert (180 < wrapped)%Q by (by apply Hgt).
    exists wrapped, (wrapped + - (360))%Q. split; [done|].
    split; [done|]. split; [by eexists|]. split; [done|].
    split; [left; split; [done|reflexivity]|]. split; [split; lra|].
    exists (- Qfloor ((raw + 360) / 360))%Z. rewrite Hmod, inject_Z_opp. ring.
  - assert (wrapped <= 180)%Q.
    { apply Qnot_lt_le. intros Hlt. apply Hgt in Hlt. done. }
    exists wrapped, wrapped. split; [done|].
    split; [done|]. split; [by eexists|]. split; [done|].
    split; [right; done|]. split; [split; lra|]. by eexists.
Qed.
(** ** The mission builder *)

Lemma py_getitem_caught (v : json) (key : string) (e : exn) :
  py_getitem v key = Raise e → caught e = true.
Proof.
  destruct v; simpl; try by intros [= <-].
  destruct (dict_get _ _); [done|]. by intros [= <-].
Qed.

Section builder_facts.
Context `{PyRuntime}.
Variable mission_settings : MissionSettings.
Variable file_pois : gmap string (pyfloat * pyfloat).

(** The loop that sums the path length raises only what its [except]
    clause does not catch. *)
Lemma distance_loop_uncaught (kfs : list tagged_keyframe)
    (acc : pyfloat * option (pyfloat * pyfloat)) (e : exn) :
  distance_loop acc kfs = Raise e → caught e = false.
Proof.
  revert acc. induction kfs as [|[kf origin] kfs IH]; intros [total last];
    cbn [distance_loop]; [done|].
  destruct (distance_step (total, last) (kf, origin)) as [acc'|e'] eqn:Hstep;
    cbn [mbind outcome_bind].
  - apply IH.
  - intros [= <-]. unfold distance_step in Hstep.
    match type of Hstep with
    | match ?body with _ => _ end = _ => destruct body as [?|e'']
    end; [done|].
    destruct (caught e'') eqn:Hcaught; [done|]. by injection Hstep as <-.
Qed.

(** The flight time is computed without an exception. *)
Lemma duration_seconds_Ok (total : pyfloat) :
  ∃ duration, duration_seconds mission_settings total = Ok duration.
Proof.
  unfold duration_seconds, fdiv.
  destruct (fgt (speed_mps mission_settings) (Finite 0)) eqn:Hgt;
    [|by eexists].
  destruct (is_zero (speed_mps mission_settings)) eqn:Hzero; [|by eexists].
  exfalso. destruct (speed_mps mission_settings) as [q| |s]; try done.
  cbn [fgt is_zero] in *. apply Qeq_bool_eq in Hzero.
  unfold py_gt in Hgt. by rewrite Hzero in Hgt.
Qed.

Lemma texts_of_Element (tag t : string) (a : list (string * string))
    (x : option text) (cs : list xml) :
  texts_of tag (Element t a x cs)
  = (if bool_decide (t = tag) then [x] else []) ++ flat_map (texts_of tag) cs.
Proof.
  assert (text_of <$> List.filter (λ c, bool_decide (tag_of c = tag))
                                   (flat_map iter cs)
          = flat_map (texts_of tag) cs) as Hcs.
  { induction cs as [|c cs IH]; cbn [flat_map]; [done|].
    by rewrite List.filter_app, fmap_app, IH. }
  unfold texts_of at 1. cbn [iter List.filter tag_of].
  destruct (bool_decide (t = tag)); cbn [fmap list_fmap text_of app];
    by rewrite <- Hcs.
Qed.

(** What the children of a placemark show, whatever the counters were. *)
Lemma placemark_children_obs (num : Z) (sa tp : pyfloat) (st : build_state) (i : Z)
    (origin : string) (lat lon alt : pyfloat) (children : list xml) (g a : Z) :
  placemark_children mission_settings file_pois num sa tp st i origin lat lon alt
  = Ok (children, g, a) →
  let pm := node "Placemark" children in
  placemark_index pm = Some (TInt i) ∧
  execute_height pm
  = Some (TFixed 1 (if bool_decide (altitudeType mission_settings ≠ Some "WGS84")
                    then fsub alt sa else alt)) ∧
  (∃ mode angle enable angle_text,
     waypoint_heading mission_settings file_pois i num origin lat lon
     = Ok (mode, angle, enable) ∧
     format_1f angle = Ok angle_text ∧
     heading_angle_enable pm = Some (TStr enable)) ∧
  children ≠ [].
Proof.
  unfold placemark_children.
  destruct (waypoint_heading _ _ _ _ _ _ _) as [[[mode angle] enable]|e];
    cbn [mbind outcome_bind]; [|done].
  destruct (format_1f angle) as [angle_text|e] eqn:Hformat;
    cbn [mbind outcome_bind]; [|done].
  generalize (if bool_decide (altitudeType mission_settings ≠ Some "WGS84")
              then fsub alt sa else alt).
  intros height.
  destruct (bool_decide (i < num - 1)%Z); intros [= <- <- <-];
    (split_and!; [reflexivity..|by exists mode, angle, enable, angle_text|done]).
Qed.

(** The ids a range of a counter gives out, as texts. *)
Lemma id_texts_app (g g1 g' : Z) :
  (g ≤ g1)%Z → (g1 ≤ g')%Z →
  (Some ∘ TInt <$> seqZ g (g1 - g)) ++ (Some ∘ TInt <$> seqZ g1 (g' - g1))
  = Some ∘ TInt <$> seqZ g (g' - g).
Proof.
  intros H1 H2. rewrite <- fmap_app. f_equal.
  replace (g' - g)%Z with ((g1 - g) + (g' - g1))%Z by lia.
  rewrite seqZ_app by lia. do 2 f_equal. lia.
Qed.

Lemma placemark_children_ids (num : Z) (sa tp : pyfloat) (st : build_state) (i : Z)
    (origin : string) (lat lon alt : pyfloat) (children : list xml) (g a : Z) :
  placemark_children mission_settings file_pois num sa tp st i origin lat lon alt
  = Ok (children, g, a) →
  let pm := node "Placemark" children in
  texts_of (wpml "actionGroupId") pm
  = (Some ∘ TInt <$> seqZ (action_group_id_counter st)
                          (g - action_group_id_counter st)) ∧
  texts_of (wpml "actionId") pm
  = (Some ∘ TInt <$> seqZ (action_id_counter st) (a - action_id_counter st)) ∧
  (action_group_id_counter st ≤ g)%Z ∧ (action_id_counter st ≤ a)%Z.
Proof.
  unfold placemark_children.
  destruct (waypoint_heading _ _ _ _ _ _ _) as [[[mode angle] enable]|e];
    cbn [mbind outcome_bind]; [|done].
  destruct (format_1f angle) as [angle_text|e]; cbn [mbind outcome_bind];
    [|done].
  generalize (if bool_decide (altitudeType mission_settings ≠ Some "WGS84")
              then fsub alt sa else alt).
  intros height.
  destruct st as [fld g0 a0]; simpl.
  destruct (bool_decide (i < num - 1)%Z); intros [= <- <- <-].
  - replace (g0 + 1 + 1 - g0)%Z with 2%Z by lia.
    replace (a0 + 1 + 1 - a0)%Z with 2%Z by lia.
    rewrite !(seqZ_cons _ 2), !(seqZ_cons _ (Z.pred 2)) by lia.
    split_and!; [reflexivity..|lia|lia].
  - replace (g0 + 1 - g0)%Z with 1%Z by lia.
    replace (a0 + 1 - a0)%Z with 1%Z by lia.
    rewrite !(seqZ_cons _ 1) by lia.
    split_and!; [reflexivity..|lia|lia].
Qed.

(** One round of the placemark loop. *)
Lemma placemark_step_spec (num : Z) (sa tp : pyfloat) (st st' : build_state) (i : Z)
    (tkf : tagged_keyframe) :
  placemark_step mission_settings file_pois num sa tp st i tkf = Ok st' →
  ∃ pm,
    folder st' = folder st ++ [pm] ∧
    placemark_appended mission_settings file_pois num sa tp i tkf pm ∧
    texts_of (wpml "actionGroupId") pm
    = (Some ∘ TInt <$> seqZ (action_group_id_counter st)
         (action_group_id_counter st' - action_group_id_counter st)) ∧
    texts_of (wpml "actionId") pm
    = (Some ∘ TInt <$> seqZ (action_id_counter st)
         (action_id_counter st' - action_id_counter st)) ∧
    (action_group_id_counter st ≤ action_group_id_counter st')%Z ∧
    (action_id_counter st ≤ action_id_counter st')%Z.
Proof.
  destruct tkf as [kf origin]. unfold placemark_step, placemark_appended.
  simpl. destruct (parse_coordinate kf) as [[[lat lon] alt]|e] eqn:Hparse.
  - destruct (placemark_children _ _ _ _ _ _ _ _ _ _ _)
      as [[[children g] a]|e] eqn:Hchildren; simpl; [|done].
    intros [= <-]. simpl.
    destruct (placemark_children_ids _ _ _ _ _ _ _ _ _ _ _ _ Hchildren)
      as (Hg & Ha & Hgle & Hale).
    exists (node "Placemark" children). split_and!; try done.
    by exists st, children, g, a.
  - destruct (caught e) eqn:Hcaught; [|done]. intros [= <-]. simpl.
    exists (node "Placemark" []). rewrite !Z.sub_diag. split_and!; done.
Qed.

(** The whole placemark loop: what it appends to the folder and the ids it
    gives out. *)
Lemma placemark_loop_spec (num : Z) (sa tp : pyfloat) (kfs : list tagged_keyframe) :
  ∀ (i : Z) (st st' : build_state),
    placemark_loop mission_settings file_pois num sa tp i kfs st = Ok st' →
    ∃ pms,
      folder st' = folder st ++ pms ∧
      placemarks_appended mission_settings file_pois num sa tp i kfs pms ∧
      flat_map (texts_of (wpml "actionGroupId")) pms
      = (Some ∘ TInt <$> seqZ (action_group_id_counter st)
           (action_group_id_counter st' - action_group_id_counter st)) ∧
      flat_map (texts_of (wpml "actionId")) pms
      = (Some ∘ TInt <$> seqZ (action_id_counter st)
           (action_id_counter st' - action_id_counter st)) ∧
      (action_group_id_counter st ≤ action_group_id_counter st')%Z ∧
      (action_id_counter st ≤ action_id_counter st')%Z.
Proof.
  induction kfs as [|tkf kfs IH]; intros i st st'; simpl.
  - intros [= <-]. exists []. rewrite app_nil_r, !Z.sub_diag.
    split_and!; done.
  - destruct (placemark_step _ _ _ _ _ _ _ _) as [st1|e] eqn:Hstep; simpl;
      [|done].
    intros Hloop.
    destruct (placemark_step_spec _ _ _ _ _ _ _ Hstep)
      as (pm & Hfolder1 & Hpm & Hg1 & Ha1 & Hgle1 & Hale1).
    destruct (IH _ _ _ Hloop) as (pms & Hfolder & Hpms & Hg & Ha & Hgle & Hale).
    exists (pm :: pms).
    refine (conj _ (conj (conj Hpm Hpms) (conj _ (conj _ (conj _ _))))).
    + by rewrite Hfolder, Hfolder1, <- app_assoc.
    + change (flat_map ?f (pm :: pms)) with (f pm ++ flat_map f pms).
      rewrite Hg1, Hg. by apply id_texts_app.
    + change (flat_map ?f (pm :: pms)) with (f pm ++ flat_map f pms).
      rewrite Ha1, Ha. by apply id_texts_app.
    + lia.
    + lia.
Qed.

Lemma placemarks_appended_length (num : Z) (sa tp : pyfloat)
    (kfs : list tagged_keyframe) :
  ∀ (i : Z) (pms : list xml),
    placemarks_appended mission_settings file_pois num sa tp i kfs pms →
    length pms = length kfs ∧ Forall (λ pm, tag_of pm = "Placemark") pms.
Proof.
  induction kfs as [|tkf kfs IH]; intros i [|pm pms]; simpl; try done.
  intros [Hpm Hpms]. destruct (IH _ _ Hpms) as [Hlen Htags].
  split; [by rewrite Hlen|]. constructor; [|done].
  unfold placemark_appended in Hpm.
  destruct (parse_coordinate tkf.1) as [[[lat lon] alt]|e];
    [|by destruct Hpm as [_ ->]].
  by destruct Hpm as (? & ? & ? & ? & _ & ->).
Qed.

Lemma create_dji_wpml_Ok (kfs : list tagged_keyframe) (doc : xml) :
  create_dji_wpml mission_settings file_pois kfs = Ok doc →
  ∃ first origin rest total duration sa pms g a,
    kfs = (first, origin) :: rest ∧
    coordinate_field first "altitude" = Ok sa ∧
    doc = mission_document mission_settings total duration pms ∧
    placemarks_appended mission_settings file_pois (Z.of_nat (length kfs)) sa
      (resolve_target_pitch mission_settings) 0 kfs pms ∧
    flat_map (texts_of (wpml "actionGroupId")) pms
    = (Some ∘ TInt <$> seqZ 1 (g - 1)) ∧
    flat_map (texts_of (wpml "actionId")) pms
    = (Some ∘ TInt <$> seqZ 1 (a - 1)) ∧
    (1 ≤ g)%Z ∧ (1 ≤ a)%Z.
Proof.
  unfold create_dji_wpml. destruct kfs as [|[first origin] rest]; [done|].
  unfold tagged_keyframe in *.
  destruct (distance_loop _ _) as [[total last]|e]; [|done].
  cbn [mbind outcome_bind].
  destruct (duration_seconds mission_settings total) as [duration|e]; [|done].
  cbn [mbind outcome_bind].
  destruct (coordinate_field first "altitude") as [sa|e] eqn:Hsa; [|done].
  cbn [mbind outcome_bind].
  destruct (placemark_loop _ _ _ _ _ _ _ _) as [st|e] eqn:Hloop; [|done].
  cbn [mbind outcome_bind mret outcome_ret]. intros [= <-].
  destruct (placemark_loop_spec _ _ _ _ _ _ _ Hloop)
    as (pms & Hfolder & Hpms & Hg & Ha & Hgle & Hale).
  cbn [folder action_group_id_counter action_id_counter] in *.
  exists first, origin, rest, total, duration, sa, pms,
    (action_group_id_counter st), (action_id_counter st).
  split_and!; try done. unfold mission_document. by rewrite Hfolder.
Qed.

Lemma placemarks_mission_document (total duration : pyfloat) (pms : list xml) :
  Forall (λ pm, tag_of pm = "Placemark") pms →
  placemarks (mission_document mission_settings total duration pms) = pms.
Proof.
  intros Htags. unfold placemarks, mission_document.
  change (find "Document" _ ≫= find "Folder")
    with (Some (node "Folder"
                  (folder_header mission_settings total duration ++ pms))).
  cbn [from_option]. unfold findall, node, children_of.
  rewrite List.filter_app.
  change (List.filter _ (folder_header mission_settings total duration))
    with (@nil xml).
  cbn [app]. induction Htags as [|pm pms Hpm _ IH]; [done|].
  cbn [List.filter]. rewrite Hpm, IH. done.
Qed.

Lemma placemarks_appended_lookup (num : Z) (sa tp : pyfloat)
    (kfs : list tagged_keyframe) :
  ∀ (i : Z) (pms : list xml) (k : nat) (tkf : tagged_keyframe),
    placemarks_appended mission_settings file_pois num sa tp i kfs pms →
    kfs !! k = Some tkf →
    ∃ pm, pms !! k = Some pm ∧
          placemark_appended mission_settings file_pois num sa tp
            (i + Z.of_nat k) tkf pm.
Proof.
  induction kfs as [|tkf0 kfs IH]; intros i [|pm pms] k tkf;
    cbn [placemarks_appended]; try done.
  intros [Hpm Hpms] Hk. destruct k as [|k].
  - injection Hk as <-. exists pm. split; [done|].
    by replace (i + Z.of_nat 0)%Z with i by lia.
  - destruct (IH _ _ _ _ Hpms Hk) as (pm' & Hlookup & Hpm').
    exists pm'. split; [done|].
    by replace (i + Z.of_nat (S k))%Z with (i + 1 + Z.of_nat k)%Z by lia.
Qed.

Lemma parses_true (kf : json) :
  parses kf = true ↔ ∃ lat lon alt, parse_coordinate kf = Ok (lat, lon, alt).
Proof.
  unfold parses. destruct (parse_coordinate kf) as [[[lat lon] alt]|e].
  - split; [by exists lat, lon, alt|done].
  - split; [done|]. by intros (? & ? & ? & ?).
Qed.

Lemma written_indices_appended (num : Z) (sa tp : pyfloat)
    (kfs : list tagged_keyframe) :
  ∀ (i : Z) (pms : list xml),
    placemarks_appended mission_settings file_pois num sa tp i kfs pms →
    omap placemark_index pms = TInt <$> parsed_positions i kfs.
Proof.
  induction kfs as [|[kf origin] kfs IH]; intros i [|pm pms];
    cbn [placemarks_appended parsed_positions]; try done.
  intros [Hpm Hpms]. specialize (IH _ _ Hpms).
  change (omap placemark_index (pm :: pms))
    with (match placemark_index pm with
          | Some y => y :: omap placemark_index pms
          | None => omap placemark_index pms
          end).
  unfold placemark_appended in Hpm. unfold parses. cbn [fst snd] in Hpm.
  destruct (parse_coordinate kf) as [[[lat lon] alt]|e].
  - destruct Hpm as (st & children & g & a & Hchildren & ->).
    destruct (placemark_children_obs _ _ _ _ _ _ _ _ _ _ _ _ Hchildren)
      as (Hindex & _).
    rewrite Hindex, IH. done.
  - destruct Hpm as [_ ->].
    change (placemark_index (node "Placemark" [])) with (@None text).
    by rewrite IH.
Qed.

Lemma parsed_positions_range (kfs : list tagged_keyframe) :
  ∀ i : Z,
    Forall (λ p, i ≤ p < i + Z.of_nat (length kfs))%Z (parsed_positions i kfs) ∧
    StronglySorted Z.lt (parsed_positions i kfs).
Proof.
  induction kfs as [|[kf origin] kfs IH]; intros i; simpl.
  - split; constructor.
  - destruct (IH (i + 1)%Z) as [Hrange Hsorted].
    assert (Forall (λ p, i < p ∧ i ≤ p < i + Z.pos (Pos.of_succ_nat (length kfs)))%Z
                   (parsed_positions (i + 1) kfs)) as Hlater.
    { eapply Forall_impl; [exact Hrange|]. simpl. lia. }
    destruct (parses kf).
    + split.
      * constructor; [lia|]. eapply Forall_impl; [exact Hlater|]. simpl. lia.
      * constructor; [done|]. eapply Forall_impl; [exact Hlater|]. simpl. lia.
    + split; [|done]. eapply Forall_impl; [exact Hlater|]. simpl. lia.
Qed.

Lemma parsed_positions_all (kfs : list tagged_keyframe) :
  ∀ i : Z,
    Forall (λ tkf, parses tkf.1 = true) kfs →
    parsed_positions i kfs = seqZ i (Z.of_nat (length kfs)).
Proof.
  induction kfs as [|[kf origin] kfs IH]; intros i Hall; simpl; [done|].
  apply Forall_cons in Hall as [Hkf Hall]. simpl in Hkf. rewrite Hkf.
  rewrite seqZ_cons by lia. rewrite (IH _ Hall). do 2 f_equal; lia.
Qed.

(** C1, as the code has it: the indices written to the document are the
    positions, in the thinned sequence, of the keyframes whose coordinate
    parses. They increase strictly and stay below the length of the
    sequence; when every keyframe parses they are exactly 0..N-1. A
    keyframe that does not parse gets no index and its position is not
    given to a later placemark. *)
Theorem written_indices_are_positions (kfs : list tagged_keyframe) (doc : xml) :
  create_dji_wpml mission_settings file_pois kfs = Ok doc →
  written_indices doc = TInt <$> parsed_positions 0 kfs ∧
  StronglySorted Z.lt (parsed_positions 0 kfs) ∧
  Forall (λ p, 0 ≤ p < Z.of_nat (length kfs))%Z (parsed_positions 0 kfs) ∧
  (Forall (λ tkf, parses tkf.1 = true) kfs →
   written_indices doc = TInt <$> seqZ 0 (Z.of_nat (length kfs))).
Proof.
  intros Hbuild.
  destruct (create_dji_wpml_Ok _ _ Hbuild)
    as (first & origin & rest & total & duration & sa & pms & g & a & Hkfs
        & Hsa & -> & Hpms & _).
  destruct (placemarks_appended_length _ _ _ _ _ _ Hpms) as [_ Htags].
  assert (written_indices (mission_document mission_settings total duration pms)
          = TInt <$> parsed_positions 0 kfs) as Hwritten.
  { unfold written_indices. rewrite placemarks_mission_document by done.
    by eapply written_indices_appended. }
  destruct (parsed_positions_range kfs 0) as [Hrange Hsorted].
  split_and!; [done..|].
  intros Hall. by rewrite Hwritten, parsed_positions_all.
Qed.

(** The placemark of the keyframe at position [k] in a built document. *)
Lemma placemark_at (kfs : list tagged_keyframe) (doc : xml) (k : nat)
    (tkf : tagged_keyframe) :
  create_dji_wpml mission_settings file_pois kfs = Ok doc →
  kfs !! k = Some tkf →
  ∃ first origin rest sa pm,
    kfs = (first, origin) :: rest ∧
    coordinate_field first "altitude" = Ok sa ∧
    length (placemarks doc) = length kfs ∧
    placemarks doc !! k = Some pm ∧
    placemark_appended mission_settings file_pois (Z.of_nat (length kfs)) sa
      (resolve_target_pitch mission_settings) (Z.of_nat k) tkf pm.
Proof.
  intros Hbuild Hk.
  destruct (create_dji_wpml_Ok _ _ Hbuild)
    as (first & origin & rest & total & duration & sa & pms & g & a & Hkfs
        & Hsa & -> & Hpms & _).
  destruct (placemarks_appended_length _ _ _ _ _ _ Hpms) as [Hlen Htags].
  destruct (placemarks_appended_lookup _ _ _ _ _ _ _ _ Hpms Hk)
    as (pm & Hpm & Happ).
  rewrite Z.add_0_l in Happ.
  exists first, origin, rest, sa, pm.
  rewrite placemarks_mission_document by done. done.
Qed.

Lemma waypoint_heading_enable (i num : Z) (origin : string) (lat lon : pyfloat)
    (mode : string) (angle : option pyfloat) (enable : string) :
  waypoint_heading mission_settings file_pois i num origin lat lon
  = Ok (mode, angle, enable) →
  enable = if heading_resolved mission_settings file_pois origin
              && bool_decide (i = 0 ∨ i = num - 1)%Z
           then "1" else "0".
Proof.
  unfold waypoint_heading, heading_resolved, first_or_last.
  destruct (file_pois !! origin) as [[center_lat center_lon]|] eqn:Hlookup;
    try destruct (calculate_bearing lat lon center_lat center_lon);
    repeat case_bool_decide; simpl; try done; try congruence;
    try (intros [= <- <- <-]; done).
  all: exfalso; naive_solver.
Qed.

(** C3, as the code has it: in a built document the angle-enable flag of
    the placemark at position k is true exactly when k is 0 or N-1 and the
    heading of its file is resolved, that is the mode is Manual Fixed
    Heading, or Point Towards File's POI with a POI set for the file. In
    every other case, a file without POI included, the flag is false. *)
Theorem heading_enable_first_last (kfs : list tagged_keyframe) (doc : xml)
    (k : nat) (kf : json) (origin : string) :
  create_dji_wpml mission_settings file_pois kfs = Ok doc →
  (2 ≤ length kfs)%nat →
  kfs !! k = Some (kf, origin) →
  parses kf = true →
  ∃ pm,
    placemarks doc !! k = Some pm ∧
    heading_angle_enable pm
    = Some (TStr (if heading_resolved mission_settings file_pois origin
                     && bool_decide (k = 0 ∨ k = length kfs - 1)%nat
                  then "1" else "0")).
Proof.
  intros Hbuild Hlen Hk Hparse.
  destruct (placemark_at _ _ _ _ Hbuild Hk)
    as (first & origin0 & rest & sa & pm & _ & _ & _ & Hpm & Happ).
  exists pm. split; [done|].
  unfold placemark_appended in Happ. cbn [fst snd] in Happ.
  apply parses_true in Hparse as (lat & lon & alt & Hparse).
  rewrite Hparse in Happ.
  destruct Happ as (st & children & g & a & Hchildren & ->).
  destruct (placemark_children_obs _ _ _ _ _ _ _ _ _ _ _ _ Hchildren)
    as (_ & _ & (mode & angle & enable & angle_text & Hheading & _ & Henable)
        & _).
  rewrite Henable, (waypoint_heading_enable _ _ _ _ _ _ _ _ Hheading).
  rewrite (bool_decide_ext (Z.of_nat k = 0 ∨ Z.of_nat k = Z.of_nat (length kfs) - 1)%Z
                           (k = 0 ∨ k = length kfs - 1)%nat) by lia.
  done.
Qed.

(** C4, as the code has it: the altitude reference is the altitude of the
    keyframe at position 0, whether or not the rest of its coordinate
    parses; the executeHeight of every placemark with a coordinate is its
    altitude when altitudeType is WGS84 and its altitude minus the
    reference otherwise. *)
Theorem execute_height_reference (kfs : list tagged_keyframe) (doc : xml) :
  create_dji_wpml mission_settings file_pois kfs = Ok doc →
  ∃ first origin rest start_altitude,
    kfs = (first, origin) :: rest ∧
    coordinate_field first "altitude" = Ok start_altitude ∧
    ∀ (k : nat) (kf : json) (file : string) (lat lon alt : pyfloat),
      kfs !! k = Some (kf, file) →
      parse_coordinate kf = Ok (lat, lon, alt) →
      ∃ pm,
        placemarks doc !! k = Some pm ∧
        execute_height pm
        = Some (TFixed 1
                  (if bool_decide (altitudeType mission_settings = Some "WGS84")
                   then alt else fsub alt start_altitude)).
Proof.
  intros Hbuild.
  destruct (create_dji_wpml_Ok _ _ Hbuild)
    as (first & origin & rest & total & duration & sa & pms & g & a & Hkfs
        & Hsa & _).
  exists first, origin, rest, sa. split_and!; [done..|].
  intros k kf file lat lon alt Hk Hparse.
  destruct (placemark_at _ _ _ _ Hbuild Hk)
    as (first' & origin' & rest' & sa' & pm & Hkfs' & Hsa' & _ & Hpm & Happ).
  rewrite Hkfs in Hkfs'. injection Hkfs' as <- <- <-.
  rewrite Hsa in Hsa'. injection Hsa' as <-.
  exists pm. split; [done|].
  unfold placemark_appended in Happ. cbn [fst snd] in Happ.
  rewrite Hparse in Happ.
  destruct Happ as (st & children & g' & a' & Hchildren & ->).
  destruct (placemark_children_obs _ _ _ _ _ _ _ _ _ _ _ _ Hchildren)
    as (_ & Hheight & _).
  rewrite Hheight. do 2 f_equal.
  destruct (decide (altitudeType mission_settings = Some "WGS84")) as [Hw|Hw].
  - rewrite bool_decide_eq_false_2 by (by intros ?).
    by rewrite bool_decide_eq_true_2.
  - rewrite bool_decide_eq_true_2 by done. by rewrite bool_decide_eq_false_2.
Qed.

(** C7: in a built document the action-group ids, in document order, are
    1, 2, ..., and so are the action ids; each sequence comes from its own
    counter, which starts at 1, goes up by one per id and is never reset. *)
Theorem action_ids_count_up (kfs : list tagged_keyframe) (doc : xml) :
  create_dji_wpml mission_settings file_pois kfs = Ok doc →
  action_group_ids doc
  = (Some ∘ TInt <$> seqZ 1 (Z.of_nat (length (action_group_ids doc)))) ∧
  action_ids doc
  = (Some ∘ TInt <$> seqZ 1 (Z.of_nat (length (action_ids doc)))).
Proof.
  intros Hbuild.
  destruct (create_dji_wpml_Ok _ _ Hbuild)
    as (first & origin & rest & total & duration & sa & pms & g & a & _ & _
        & -> & _ & Hg & Ha & Hgle & Hale).
  assert (∀ tag,
            texts_of (wpml tag) (mission_config mission_settings) = [] →
            flat_map (texts_of (wpml tag))
                     (folder_header mission_settings total duration) = [] →
            texts_of (wpml tag)
                     (mission_document mission_settings total duration pms)
            = flat_map (texts_of (wpml tag)) pms) as Hdoc.
  { intros tag Hconfig Hheader. unfold mission_document, node.
    rewrite texts_of_Element. cbn [flat_map].
    rewrite texts_of_Element. cbn [flat_map].
    rewrite texts_of_Element, flat_map_app, Hconfig, Hheader.
    rewrite !app_nil_r. cbn [app].
    replace (bool_decide ("kml" = wpml tag)) with false; [|done].
    replace (bool_decide ("Document" = wpml tag)) with false; [|done].
    replace (bool_decide ("Folder" = wpml tag)) with false; [|done].
    done. }
  unfold action_group_ids, action_ids.
  rewrite !Hdoc by reflexivity. rewrite Hg, Ha.
  rewrite !length_fmap, !length_seqZ, !Z2Nat.id by lia. done.
Qed.

(** C9 (amended): a round of the placemark loop on a keyframe whose
    coordinate raises an exception the [try] catches (a missing or
    non-numeric field) appends a [Placemark] without children to the folder
    and leaves the counters alone.  So a document that is built holds one
    [Placemark] per keyframe, in order, and the one of a keyframe is empty
    exactly when its coordinate did not parse.  When the altitude of the
    keyframe at position 0 is the field that fails, no document is built:
    the build raises before the placemark loop. *)
Theorem skipped_keyframe_leaves_empty_placemark (kfs : list tagged_keyframe) :
  (∀ num sa tp st i kf origin e,
     parse_coordinate kf = Raise e → caught e = true →
     placemark_step mission_settings file_pois num sa tp st i (kf, origin)
     = Ok {| folder := folder st ++ [ node "Placemark" [] ];
             action_group_id_counter := action_group_id_counter st;
             action_id_counter := action_id_counter st |}) ∧
  (∀ doc,
     create_dji_wpml mission_settings file_pois kfs = Ok doc →
     length (placemarks doc) = length kfs ∧
     (∀ k kf origin,
        kfs !! k = Some (kf, origin) →
        ∃ pm, placemarks doc !! k = Some pm ∧
              (pm = node "Placemark" [] ↔ parses kf = false)) ∧
     length (List.filter childless (placemarks doc))
     = length (List.filter (λ tkf, negb (parses tkf.1)) kfs)) ∧
  (∀ first origin rest e,
     kfs = (first, origin) :: rest →
     coordinate_field first "altitude" = Raise e →
     create_dji_wpml mission_settings file_pois kfs
     = match distance_loop (Finite 0, None) kfs with
       | Ok _ => Raise e
       | Raise e' => Raise e'
       end).
Proof.
  split_and!.
  - intros num sa tp st i kf origin e Hparse Hcaught. unfold placemark_step.
    by rewrite Hparse, Hcaught.
  - intros doc Hbuild. split_and!.
    + destruct kfs as [|tkf rest] eqn:Hkfs; [done|].
      by destruct (placemark_at _ _ 0%nat tkf Hbuild eq_refl)
        as (_ & _ & _ & _ & _ & _ & _ & Hlen & _).
    + intros k kf origin Hk.
      destruct (placemark_at _ _ _ _ Hbuild Hk)
        as (first & origin0 & rest & sa & pm & _ & _ & _ & Hpm & Happ).
      exists pm. split; [done|].
      unfold placemark_appended in Happ. unfold parses. cbn [fst snd] in Happ.
      destruct (parse_coordinate kf) as [[[lat lon] alt]|e];
        [|by destruct Happ as [_ ->]].
      destruct Happ as (st & children & g & a & Hchildren & ->).
      destruct (placemark_children_obs _ _ _ _ _ _ _ _ _ _ _ _ Hchildren)
        as (_ & _ & _ & Hne).
      split; [|done]. intros [= ->]. done.
    + destruct (create_dji_wpml_Ok _ _ Hbuild)
        as (first & origin & rest & total & duration & sa & pms & g & a & _ & _
            & -> & Hpms & _).
      destruct (placemarks_appended_length _ _ _ _ _ _ Hpms) as [_ Htags].
      rewrite placemarks_mission_document by done.
      clear -Hpms. revert Hpms. generalize 0%Z, (Z.of_nat (length kfs)).
      revert pms.
      induction kfs as [|[kf file] kfs' IH]; intros [|pm pms] i num;
        cbn [placemarks_appended]; try done.
      intros [Hpm Hpms]. specialize (IH _ _ _ Hpms).
      cbn [List.filter fst]. unfold placemark_appended in Hpm. unfold parses.
      cbn [fst snd] in Hpm.
      destruct (parse_coordinate kf) as [[[lat lon] alt]|e].
      * destruct Hpm as (st & children & g & a & Hchildren & ->).
        destruct (placemark_children_obs _ _ _ _ _ _ _ _ _ _ _ _ Hchildren)
          as (_ & _ & _ & Hne).
        destruct children; [done|]. done.
      * destruct Hpm as [_ ->]. simpl. by rewrite IH.
  - intros first origin rest e -> Halt. unfold create_dji_wpml.
    unfold tagged_keyframe in *.
    destruct (distance_loop _ _) as [[total last]|e']; [|done].
    cbn [mbind outcome_bind].
    destruct (duration_seconds_Ok total) as [duration ->].
    cbn [mbind outcome_bind]. by rewrite Halt.
Qed.

(** Every keyframe is missing its heading angle: the mode is the manual one
    and no angle is set. *)
Lemma manual_heading_missing_raises (num : Z) (sa tp : pyfloat)
    (st : build_state) (i : Z) (origin : string) (lat lon alt : pyfloat) :
  heading_mode_option mission_settings = "Manual Fixed Heading" →
  manual_heading mission_settings = None →
  placemark_children mission_settings file_pois num sa tp st i origin lat lon alt
  = Raise TypeError.
Proof.
  intros Hmode Hangle. unfold placemark_children, waypoint_heading.
  rewrite Hmode, Hangle.
  rewrite (bool_decide_eq_false_2
             ("Manual Fixed Heading" = "Point Towards File's POI")) by done.
  rewrite (bool_decide_eq_true_2
             ("Manual Fixed Heading" = "Manual Fixed Heading")) by done.
  reflexivity.
Qed.

Lemma placemark_step_manual_heading_missing (num : Z) (sa tp : pyfloat)
    (st : build_state) (i : Z) (kf : json) (origin : string) :
  heading_mode_option mission_settings = "Manual Fixed Heading" →
  manual_heading mission_settings = None →
  parses kf = true →
  placemark_step mission_settings file_pois num sa tp st i (kf, origin)
  = Raise TypeError.
Proof.
  intros Hmode Hangle (lat & lon & alt & Hparse)%parses_true.
  unfold placemark_step. rewrite Hparse.
  by rewrite manual_heading_missing_raises.
Qed.

(** The placemark loop does not complete when some coordinate parses. *)
Lemma placemark_loop_manual_heading_missing (num : Z) (sa tp : pyfloat)
    (kfs : list tagged_keyframe) :
  heading_mode_option mission_settings = "Manual Fixed Heading" →
  manual_heading mission_settings = None →
  Exists (λ tkf, parses tkf.1 = true) kfs →
  ∀ i st,
    ∃ e,
      placemark_loop mission_settings file_pois num sa tp i kfs st = Raise e ∧
      (Forall (λ tkf, ∀ e', parse_coordinate tkf.1 = Raise e' → caught e' = true)
              kfs → e = TypeError).
Proof.
  intros Hmode Hangle Hex.
  induction kfs as [|[kf origin] kfs IH]; intros i st;
    [by apply Exists_nil in Hex|].
  cbn [placemark_loop].
  destruct (parses kf) eqn:Hkf.
  - rewrite placemark_step_manual_heading_missing by done.
    by exists TypeError.
  - unfold placemark_step. unfold parses in Hkf.
    destruct (parse_coordinate kf) as [?|e] eqn:Hparse; [done|].
    destruct (caught e) eqn:Hcaught.
    + cbn [mbind outcome_bind].
      apply Exists_cons in Hex as [Hhd|Hrest].
      { cbn [fst] in Hhd. unfold parses in Hhd. by rewrite Hparse in Hhd. }
      destruct (IH Hrest (i + 1)%Z
                  {| folder := folder st ++ [node "Placemark" []];
                     action_group_id_counter := action_group_id_counter st;
                     action_id_counter := action_id_counter st |})
        as (e' & Hloop & Htype).
      exists e'. split; [done|].
      intros Hall. apply Htype. by apply Forall_cons in Hall as [_ ?].
    + exists e. split; [done|]. intros Hall.
      apply Forall_cons in Hall as [Hhd _]. cbn [fst] in Hhd.
      specialize (Hhd _ Hparse). congruence.
Qed.

(** C10 (amended): under Manual Fixed Heading with no manual_heading,
    [create_dji_wpml] builds no document whenever the coordinate of some
    keyframe parses, and nothing checks the settings before the build.
    Every round of the placemark loop on a keyframe that parses raises the
    TypeError of formatting the missing angle.  When the loop that sums the
    path length completes and keyframe 0 parses, that TypeError, raised at
    the first placemark, is the result; when every failing coordinate
    fails with an exception the [try] catches, the result is the TypeError
    unless the altitude of keyframe 0 fails, which is raised before the
    loop.  An exception the path-length loop does not catch (the
    OverflowError of a number beyond the doubles) is raised before any
    placemark is built. *)
Theorem manual_heading_missing_aborts (kfs : list tagged_keyframe)
    (first : json) (origin : string) (rest : list tagged_keyframe) :
  heading_mode_option mission_settings = "Manual Fixed Heading" →
  manual_heading mission_settings = None →
  kfs = (first, origin) :: rest →
  Exists (λ tkf, parses tkf.1 = true) kfs →
  (∀ doc, create_dji_wpml mission_settings file_pois kfs ≠ Ok doc) ∧
  (∀ num sa tp st i kf file,
     parses kf = true →
     placemark_step mission_settings file_pois num sa tp st i (kf, file)
     = Raise TypeError) ∧
  (∀ acc,
     distance_loop (Finite 0, None) kfs = Ok acc →
     (parses first = true →
      create_dji_wpml mission_settings file_pois kfs = Raise TypeError) ∧
     (Forall (λ tkf, ∀ e, parse_coordinate tkf.1 = Raise e → caught e = true)
             kfs →
      create_dji_wpml mission_settings file_pois kfs
      = match coordinate_field first "altitude" with
        | Ok _ => Raise TypeError
        | Raise e => Raise e
        end)) ∧
  (∀ e,
     distance_loop (Finite 0, None) kfs = Raise e →
     caught e = false ∧
     create_dji_wpml mission_settings file_pois kfs = Raise e).
Proof.
  intros Hmode Hangle Hkfs Hex.
  assert (∀ acc,
            distance_loop (Finite 0, None) kfs = Ok acc →
            ∃ e,
              create_dji_wpml mission_settings file_pois kfs
              = match coordinate_field first "altitude" with
                | Ok _ => Raise e
                | Raise e' => Raise e'
                end ∧
              (Forall (λ tkf, ∀ e', parse_coordinate tkf.1 = Raise e' →
                              caught e' = true) kfs → e = TypeError) ∧
              (parses first = true → e = TypeError)) as Hloop.
  { intros [total last] Hdistance. unfold create_dji_wpml.
    rewrite Hkfs in Hdistance |- *. unfold tagged_keyframe in *.
    rewrite Hdistance. cbn [mbind outcome_bind].
    destruct (duration_seconds_Ok total) as [duration ->].
    cbn [mbind outcome_bind].
    destruct (coordinate_field first "altitude") as [sa|e].
    - cbn [mbind outcome_bind]. rewrite <- Hkfs.
      destruct (placemark_loop_manual_heading_missing
                  (Z.of_nat (length kfs)) sa
                  (resolve_target_pitch mission_settings) kfs Hmode Hangle Hex
                  0%Z {| folder := folder_header mission_settings total duration;
                         action_group_id_counter := 1;
                         action_id_counter := 1 |})
        as (e & Hraise & Htype).
      exists e. rewrite Hraise. split_and!; [done..|].
      intros Hfirst. rewrite Hkfs in Hraise. cbn [placemark_loop] in Hraise.
      rewrite placemark_step_manual_heading_missing in Hraise by done.
      by injection Hraise as <-.
    - exists TypeError. done. }
  split_and!.
  - intros doc Hdoc.
    destruct (distance_loop (Finite 0, None) kfs) as [acc|e] eqn:Hdistance.
    + destruct (Hloop _ eq_refl) as (e & Hraise & _).
      rewrite Hraise in Hdoc.
      by destruct (coordinate_field first "altitude").
    + unfold create_dji_wpml in Hdoc. rewrite Hkfs in Hdistance, Hdoc.
      unfold tagged_keyframe in *. by rewrite Hdistance in Hdoc.
  - intros num sa tp st i kf file Hkf.
    by apply placemark_step_manual_heading_missing.
  - intros acc Hdistance.
    destruct (Hloop _ Hdistance) as (e & Hraise & Hall & Hfirst).
    split.
    + intros Hparses. rewrite Hraise, (Hfirst Hparses).
      apply parses_true in Hparses as (lat & lon & alt & Hparse).
      unfold parse_coordinate in Hparse.
      destruct (coordinate_field first "latitude"); [|done].
      destruct (coordinate_field first "longitude"); [|done].
      by destruct (coordinate_field first "altitude").
    + intros Hcaught. by rewrite Hraise, (Hall Hcaught).
  - intros e Hdistance. split; [by eapply distance_loop_uncaught|].
    unfold create_dji_wpml. rewrite Hkfs in Hdistance |- *.
    unfold tagged_keyframe in *. by rewrite Hdistance.
Qed.

End builder_facts.

(** *** Examples of built documents *)

(** C1 as stated fails: with a keyframe in the middle that does not parse,
    the indices written are 0 and 2; position 1 is used up by the skipped
    keyframe. *)
Lemma written_indices_gap :
  ∃ doc,
    create_dji_wpml (H := approx_runtime) no_settings ∅ gap_keyframes = Ok doc ∧
    written_indices doc = [ TInt 0; TInt 2 ] ∧
    written_indices doc
    ≠ TInt <$> seqZ 0 (Z.of_nat (length (written_indices doc))).
Proof.
  eexists. split; [vm_compute; reflexivity|].
  split; [vm_compute; reflexivity|]. vm_compute. discriminate.
Qed.

Lemma written_indices_are_positions_witness :
  ∃ doc,
    create_dji_wpml (H := approx_runtime) no_settings ∅ gap_keyframes = Ok doc ∧
    written_indices doc
    = TInt <$> parsed_positions (H := approx_runtime) 0 gap_keyframes ∧
    StronglySorted Z.lt (parsed_positions (H := approx_runtime) 0 gap_keyframes) ∧
    Forall (λ p, 0 ≤ p < 3)%Z
           (parsed_positions (H := approx_runtime) 0 gap_keyframes) ∧
    (Forall (λ tkf, parses (H := approx_runtime) tkf.1 = true) gap_keyframes →
     written_indices doc = TInt <$> seqZ 0 3).
Proof.
  destruct (create_dji_wpml (H := approx_runtime) no_settings ∅ gap_keyframes)
    as [doc|e] eqn:Hbuild; [|vm_compute in Hbuild; discriminate Hbuild].
  exists doc. split; [reflexivity|].
  exact (written_indices_are_positions no_settings ∅ gap_keyframes doc Hbuild).
Defined.

(** C3 as stated fails: under Point Towards File's POI with no POI set, no
    placemark has the flag true, the first and last included. *)
Lemma heading_enable_without_poi :
  ∃ doc,
    create_dji_wpml (H := approx_runtime)
      (with_heading "Point Towards File's POI" None) ∅ three_keyframes
    = Ok doc ∧
    heading_mode_option (with_heading "Point Towards File's POI" None)
    ≠ "Follow Course" ∧
    heading_angle_enable <$> placemarks doc
    = [ Some (TStr "0"); Some (TStr "0"); Some (TStr "0") ].
Proof.
  eexists. split; [vm_compute; reflexivity|].
  split; [done|vm_compute; reflexivity].
Qed.

Lemma heading_enable_first_last_witness :
  ∃ doc,
    create_dji_wpml (H := approx_runtime)
      (with_heading "Manual Fixed Heading" (Some (Finite 90))) ∅ three_keyframes
    = Ok doc ∧
    ∃ pm, placemarks doc !! 2%nat = Some pm ∧
          heading_angle_enable pm = Some (TStr "1").
Proof.
  destruct (create_dji_wpml (H := approx_runtime)
              (with_heading "Manual Fixed Heading" (Some (Finite 90))) ∅
              three_keyframes)
    as [doc|e] eqn:Hbuild; [|vm_compute in Hbuild; discriminate Hbuild].
  exists doc. split; [reflexivity|].
  apply (heading_enable_first_last
           (with_heading "Manual Fixed Heading" (Some (Finite 90))) ∅
           three_keyframes doc 2
           (keyframe_at (101 # 10) (201 # 10) 90) "b.json" Hbuild).
  - simpl. lia.
  - reflexivity.
  - reflexivity.
Defined.

(** C4 as stated fails: the first keyframe has an altitude (100) but no
    latitude, so the first keyframe that parses is the second (altitude
    50); the reference is 100 all the same and the second placemark gets
    50 - 100. *)
Lemma altitude_reference_is_first_keyframe :
  ∃ doc h,
    create_dji_wpml (H := approx_runtime) (with_heading "Follow Course" None) ∅
      late_start_keyframes
    = Ok doc ∧
    spec_altitude_reference (H := approx_runtime) late_start_keyframes
    = Some (Finite 50) ∧
    execute_height <$> placemarks doc = [ None; Some (TFixed 1 (Finite h)) ] ∧
    (h == 50 - 100)%Q ∧ ¬ (h == 50 - 50)%Q.
Proof.
  eexists. eexists. split; [vm_compute; reflexivity|].
  split; [vm_compute; reflexivity|].
  split; [vm_compute; reflexivity|]. split; [reflexivity|]. by intros [=].
Qed.

Lemma execute_height_reference_witness :
  ∃ doc,
    create_dji_wpml (H := approx_runtime) (with_heading "Follow Course" None) ∅
      late_start_keyframes
    = Ok doc ∧
    ∃ first origin rest start_altitude,
      late_start_keyframes = (first, origin) :: rest ∧
      coordinate_field (H := approx_runtime) first "altitude" = Ok start_altitude ∧
      ∀ (k : nat) (kf : json) (file : string) (lat lon alt : pyfloat),
        late_start_keyframes !! k = Some (kf, file) →
        parse_coordinate (H := approx_runtime) kf = Ok (lat, lon, alt) →
        ∃ pm,
          placemarks doc !! k = Some pm ∧
          execute_height pm = Some (TFixed 1 (fsub alt start_altitude)).
Proof.
  destruct (create_dji_wpml (H := approx_runtime)
              (with_heading "Follow Course" None) ∅ late_start_keyframes)
    as [doc|e] eqn:Hbuild; [|vm_compute in Hbuild; discriminate Hbuild].
  exists doc. split; [reflexivity|].
  exact (execute_height_reference (with_heading "Follow Course" None) ∅
           late_start_keyframes doc Hbuild).
Defined.

Lemma action_ids_count_up_witness :
  ∃ doc,
    create_dji_wpml (H := approx_runtime) no_settings ∅ three_keyframes = Ok doc ∧
    action_group_ids doc
    = (Some ∘ TInt <$> seqZ 1 (Z.of_nat (length (action_group_ids doc)))) ∧
    action_ids doc
    = (Some ∘ TInt <$> seqZ 1 (Z.of_nat (length (action_ids doc)))).
Proof.
  destruct (create_dji_wpml (H := approx_runtime) no_settings ∅ three_keyframes)
    as [doc|e] eqn:Hbuild; [|vm_compute in Hbuild; discriminate Hbuild].
  exists doc. split; [reflexivity|].
  exact (action_ids_count_up no_settings ∅ three_keyframes doc Hbuild).
Defined.

Example action_ids_three_keyframes :
  ∃ doc,
    create_dji_wpml (H := approx_runtime) no_settings ∅ three_keyframes = Ok doc ∧
    action_group_ids doc = Some ∘ TInt <$> [ 1; 2; 3; 4; 5 ]%Z ∧
    action_ids doc = Some ∘ TInt <$> [ 1; 2; 3; 4; 5 ]%Z.
Proof. eexists. split_and!; vm_compute; reflexivity. Qed.

(** C9 as stated fails: the coordinate of the keyframe at position 0 has no
    field at all; the altitude reference is read from it before the
    placemark loop, outside every [try], so the build raises [KeyError] and
    no [Placemark], empty or not, is written for the skipped point. *)
Lemma missing_first_altitude_builds_nothing :
  no_altitude_keyframes !! 0%nat = Some (keyframe_without_fields, "a.json") ∧
  parse_coordinate (H := approx_runtime) keyframe_without_fields
  = Raise KeyError ∧
  coordinate_field (H := approx_runtime) keyframe_without_fields "altitude"
  = Raise KeyError ∧
  create_dji_wpml (H := approx_runtime) no_settings ∅ no_altitude_keyframes
  = Raise KeyError.
Proof. split_and!; vm_compute; reflexivity. Qed.

Lemma skipped_keyframe_leaves_empty_placemark_witness :
  ∃ doc,
    create_dji_wpml (H := approx_runtime) no_settings ∅ gap_keyframes = Ok doc ∧
    length (placemarks doc) = 3%nat ∧
    (∀ k kf origin,
       gap_keyframes !! k = Some (kf, origin) →
       ∃ pm, placemarks doc !! k = Some pm ∧
             (pm = node "Placemark" [] ↔ parses (H := approx_runtime) kf = false)) ∧
    length (List.filter childless (placemarks doc)) = 1%nat.
Proof.
  destruct (create_dji_wpml (H := approx_runtime) no_settings ∅ gap_keyframes)
    as [doc|e] eqn:Hbuild; [|vm_compute in Hbuild; discriminate Hbuild].
  exists doc. split; [reflexivity|].
  exact (proj1 (proj2 (skipped_keyframe_leaves_empty_placemark
                         (H := approx_runtime) no_settings ∅ gap_keyframes))
           doc Hbuild).
Defined.

(** C10 as stated fails: when no keyframe has a coordinate that parses, the
    missing manual heading is never formatted and a document (of empty
    placemarks) is built. *)
Lemma manual_heading_missing_still_builds :
  ∃ doc,
    create_dji_wpml (H := approx_runtime)
      (with_heading "Manual Fixed Heading" None) ∅ altitude_only_keyframes
    = Ok doc ∧
    altitude_only_keyframes ≠ [] ∧
    manual_heading (with_heading "Manual Fixed Heading" None) = None ∧
    placemarks doc = [ node "Placemark" [] ].
Proof.
  eexists. split; [vm_compute; reflexivity|].
  split_and!; [done|done|vm_compute; reflexivity].
Qed.

Lemma manual_heading_missing_aborts_witness :
  (∀ acc,
     distance_loop (H := approx_runtime) (Finite 0, None) gap_keyframes = Ok acc →
     parses (H := approx_runtime) (keyframe_at 10 20 100) = true →
     create_dji_wpml (H := approx_runtime)
       (with_heading "Manual Fixed Heading" None) ∅ gap_keyframes
     = Raise TypeError) ∧
  ∀ doc,
    create_dji_wpml (H := approx_runtime)
      (with_heading "Manual Fixed Heading" None) ∅ gap_keyframes
    ≠ Ok doc.
Proof.
  destruct (manual_heading_missing_aborts (H := approx_runtime)
              (with_heading "Manual Fixed Heading" None) ∅ gap_keyframes
              (keyframe_at 10 20 100) "a.json"
              [ (keyframe_altitude_only 120, "a.json");
                (keyframe_at (101 # 10) (201 # 10) 90, "b.json") ])
    as (Hnone & _ & Hloop & _).
  - reflexivity.
  - reflexivity.
  - reflexivity.
  - apply Exists_cons_hd. reflexivity.
  - split; [|exact Hnone].
    intros acc Hdistance. exact (proj1 (Hloop acc Hdistance)).
Defined.

(** Under Manual Fixed Heading with no angle, a latitude beyond the doubles
    in the second keyframe: the [OverflowError] of [float] is not caught by
    the loop that sums the path length, and it is the exception of the
    build; the first placemark is never reached. *)
Example manual_heading_missing_overflow :
  distance_loop (H := approx_runtime) (Finite 0, None) overflow_keyframes
  = Raise OverflowError ∧
  create_dji_wpml (H := approx_runtime)
    (with_heading "Manual Fixed Heading" None) ∅ overflow_keyframes
  = Raise OverflowError.
Proof. split; vm_compute; reflexivity. Qed.
(** ** [create_template_kml] *)

Lemma contains_cons (needle : string) (c : ascii) (hay : string) :
  contains needle hay = true → contains needle (String c hay) = true.
Proof. intros Hhay. cbn [contains]. rewrite Hhay. apply orb_true_r. Qed.

Lemma contains_app_r (needle before hay : string) :
  contains needle hay = true → contains needle (before +:+ hay) = true.
Proof.
  intros Hhay. induction before as [|c before IH]; [done|].
  by apply contains_cons.
Qed.

(** Finds a text that stands after the two timestamps of the template. *)
Ltac find_in_template :=
  unfold default_template; cbn [String.concat];
  repeat first
    [ solve [vm_compute; reflexivity]
    | apply contains_app_r
    | apply contains_cons ].

Lemma default_template_has_markers (timestamp_ms : string) :
  has_config_markers (default_template timestamp_ms) = true.
Proof.
  unfold has_config_markers. apply andb_true_iff. split; find_in_template.
Qed.

Lemma default_template_not_empty (timestamp_ms : string) :
  default_template timestamp_ms ≠ EmptyString.
Proof. unfold default_template. cbn [String.concat]. done. Qed.

(** C5, as the code has it: [create_template_kml] returns the reference
    text verbatim if and only if the text is not empty and holds the two
    markers [<wpml:missionConfig>] and [<wpml:droneInfo>] as substrings;
    nothing is parsed. For every other input, absent text included, it
    returns the default template, which holds the mission-config
    constants. *)
Theorem create_template_kml_reuse (content timestamp_ms : string) :
  (create_template_kml (Some content) timestamp_ms = content
   ↔ content ≠ EmptyString ∧ has_config_markers content = true) ∧
  (content = EmptyString ∨ has_config_markers content = false →
   create_template_kml (Some content) timestamp_ms
   = default_template timestamp_ms) ∧
  create_template_kml None timestamp_ms = default_template timestamp_ms ∧
  Forall (λ line, contains line (default_template timestamp_ms) = true)
    [ "<wpml:flyToWaylineMode>safely</wpml:flyToWaylineMode>";
      "<wpml:finishAction>" +:+ DEFAULT_FINISH_ACTION +:+ "</wpml:finishAction>";
      "<wpml:exitOnRCLost>executeLostAction</wpml:exitOnRCLost>";
      "<wpml:executeRCLostAction>" +:+ DEFAULT_RC_LOST_ACTION
        +:+ "</wpml:executeRCLostAction>";
      "<wpml:globalTransitionalSpeed>"
        +:+ format_fixed 1 DEFAULT_TRANSITIONAL_SPEED_MPS
        +:+ "</wpml:globalTransitionalSpeed>";
      "<wpml:droneEnumValue>" +:+ pretty DRONE_ENUM_VALUE
        +:+ "</wpml:droneEnumValue>";
      "<wpml:droneSubEnumValue>" +:+ pretty DRONE_SUB_ENUM_VALUE
        +:+ "</wpml:droneSubEnumValue>" ].
Proof.
  assert (content = EmptyString ∨ has_config_markers content = false →
          create_template_kml (Some content) timestamp_ms
          = default_template timestamp_ms) as Hdefault.
  { unfold create_template_kml. intros [->|Hmarkers]; [done|].
    rewrite Hmarkers. by destruct (negb _). }
  split_and!.
  - split.
    + intros Hsame.
      destruct (decide (content = EmptyString)) as [->|Hne].
      { rewrite Hdefault in Hsame by (by left).
        by apply default_template_not_empty in Hsame. }
      split; [done|].
      destruct (has_config_markers content) eqn:Hmarkers; [done|].
      rewrite Hdefault in Hsame by (by right).
      rewrite <- Hsame, default_template_has_markers in Hmarkers. done.
    + intros [Hne Hmarkers]. unfold create_template_kml.
      rewrite Hmarkers.
      destruct (String.eqb_spec content EmptyString) as [->|_]; done.
  - done.
  - done.
  - repeat constructor; find_in_template.
Qed.

(** C5 as stated fails: a text that holds the two markers is returned
    verbatim although its tags are not balanced, so it does not parse. *)
Lemma unparsable_reference_is_reused :
  create_template_kml (Some unbalanced_reference) "0" = unbalanced_reference ∧
  tags_balanced unbalanced_reference = false ∧
  spec_reuses_reference unbalanced_reference = false.
Proof. split_and!; vm_compute; reflexivity. Qed.

Example default_template_is_balanced :
  tags_balanced (default_template "1700000000000") = true.
Proof. vm_compute. reflexivity. Qed.

Lemma create_template_kml_reuse_witness :
  create_template_kml (Some unbalanced_reference) "0" = unbalanced_reference ∧
  create_template_kml (Some "<kml/>") "0" = default_template "0".
Proof.
  split.
  - apply (proj1 (create_template_kml_reuse unbalanced_reference "0")).
    split; [done|reflexivity].
  - apply (proj1 (proj2 (create_template_kml_reuse "<kml/>" "0"))).
    right. reflexivity.
Defined.

(** *** Examples of thinning *)

Example thin_10_to_4 :
  thin_keyframes [0; 1; 2; 3; 4; 5; 6; 7; 8; 9]%nat (Some 4%Z)
  = Ok [0; 3; 6; 9]%nat.
Proof. vm_compute. reflexivity. Qed.

Example thin_6_to_3_tie :
  thin_keyframes [0; 1; 2; 3; 4; 5]%nat (Some 3%Z) = Ok [0; 2; 5]%nat.
Proof. vm_compute. reflexivity. Qed.
